(** * AIARForecaster: the CSV-to-time-series aggregation engine

    A shallow embedding of [src/services/csvService.ts] ([parseCSVLine] and
    the [onload] handler of [parseCSV]) and the properties of its
    specification.

    Conventions of the embedding.
    - A JavaScript string is a [string]; a character is a code unit below
      256 (every character the engine tests for is ASCII).
    - A JavaScript number is an IEEE 754 binary64 value, [spec_float] at
      precision 53 and maximal exponent 1024, with the Standard Library's
      executable operations.
    - [undefined] is [None].
    - [Record<string, T>] objects are association lists in insertion order,
      which is the order [Object.entries] enumerates string keys that are
      not array indices; the engine enumerates records keyed by month
      only, and every month key holds a hyphen.  Only own properties are
      modelled: a class name that is also the name of a member of
      [Object.prototype] is outside the embedding.
    - The two services of the host that the engine calls and that the
      language standard leaves to the implementation, [new Date(string)]
      and [String.prototype.localeCompare], are variables of a section. *)

From Stdlib Require Import ZArith List String Ascii Bool Lia.
From Stdlib Require Import SpecFloat DecimalString QArith.
From Stdlib Require Import Sorted Permutation.
From Stdlib Require OrderedTypeEx.
Import ListNotations.

Local Open Scope string_scope.
Local Open Scope Z_scope.

(** ** Strings of the host language *)

Module JsString.

Definition code (c : ascii) : N := N_of_ascii c.

Definition quote : ascii := ascii_of_N 34.
Definition comma : ascii := ","%char.
Definition CR : ascii := ascii_of_N 13.
Definition LF : ascii := ascii_of_N 10.

(** A line break, and the text of a file from its lines. *)
Definition newline : string := String LF EmptyString.

Definition fileOf (lines : list string) : string := concat newline lines.

(** The text [s] between two quote characters, as a file holds a quoted
    field. *)
Definition quoted (s : string) : string :=
  String quote (s ++ String quote EmptyString).

(** WhiteSpace and LineTerminator code units below 256: TAB, LF, VT, FF,
    CR, SP and NBSP. *)
Definition isWhiteSpace (c : ascii) : bool :=
  let n := code c in
  ((9 <=? n) && (n <=? 13))%N || (n =? 32)%N || (n =? 160)%N.

Definition isDigit (c : ascii) : bool :=
  let n := code c in ((48 <=? n) && (n <=? 57))%N.

Definition isLower (c : ascii) : bool :=
  let n := code c in ((97 <=? n) && (n <=? 122))%N.

Fixpoint filter (p : ascii -> bool) (s : string) : string :=
  match s with
  | EmptyString => EmptyString
  | String c r => if p c then String c (filter p r) else filter p r
  end.

Fixpoint map (f : ascii -> ascii) (s : string) : string :=
  match s with
  | EmptyString => EmptyString
  | String c r => String (f c) (map f r)
  end.

(** [p] holds of every character of [s]. *)
Fixpoint every (p : ascii -> bool) (s : string) : bool :=
  match s with
  | EmptyString => true
  | String c r => p c && every p r
  end.

Definition isEmpty (s : string) : bool :=
  match s with EmptyString => true | _ => false end.

Fixpoint trimStart (s : string) : string :=
  match s with
  | EmptyString => EmptyString
  | String c r => if isWhiteSpace c then trimStart r else s
  end.

Fixpoint trimEnd (s : string) : string :=
  match s with
  | EmptyString => EmptyString
  | String c r =>
      let t := trimEnd r in
      if isWhiteSpace c && isEmpty t then EmptyString else String c t
  end.

(** [s.trim()] *)
Definition trim (s : string) : string := trimEnd (trimStart s).

(** [s.startsWith(c)] and [s.endsWith(c)] for a one-character [c]. *)
Definition startsWithChar (c : ascii) (s : string) : bool :=
  match s with String d _ => Ascii.eqb d c | EmptyString => false end.

Fixpoint endsWithChar (c : ascii) (s : string) : bool :=
  match s with
  | EmptyString => false
  | String d EmptyString => Ascii.eqb d c
  | String _ r => endsWithChar c r
  end.

(** [s.slice(1, -1)] *)
Definition slice_1_m1 (s : string) : string :=
  substring 1 (String.length s - 2) s.

(** [s.toLowerCase()] on code units below 256: A-Z, and the capital
    letters of Latin-1 (all of 192..222 but the multiplication sign). *)
Definition toLowerChar (c : ascii) : ascii :=
  let n := code c in
  if ((65 <=? n) && (n <=? 90))%N
     || ((192 <=? n) && (n <=? 222) && negb (n =? 215))%N
  then ascii_of_N (n + 32) else c.

Definition toLowerCase (s : string) : string := map toLowerChar s.

(** [s.includes(c)] for a one-character [c]. *)
Fixpoint includesChar (c : ascii) (s : string) : bool :=
  match s with
  | EmptyString => false
  | String d r => Ascii.eqb d c || includesChar c r
  end.

(** [a.indexOf(x)] on an array of strings, with the host's [-1]. *)
Fixpoint indexOfFrom (i : Z) (x : string) (a : list string) : Z :=
  match a with
  | [] => -1
  | y :: r => if String.eqb y x then i else indexOfFrom (i + 1) x r
  end.

Definition indexOf (a : list string) (x : string) : Z := indexOfFrom 0 x a.

(** [a[i]]: [undefined] outside the array. *)
Definition at_ (a : list string) (i : Z) : option string :=
  if i <? 0 then None else nth_error a (Z.to_nat i).

(** [text.split(/\r?\n/)]: a line ends at LF, and one CR before that LF
    belongs to the separator. *)
Fixpoint splitLinesFrom (cur : string) (s : string) : list string :=
  match s with
  | EmptyString => [cur]
  | String c r =>
      if Ascii.eqb c LF then cur :: splitLinesFrom EmptyString r
      else
        match r with
        | String d r' =>
            if Ascii.eqb c CR && Ascii.eqb d LF
            then cur :: splitLinesFrom EmptyString r'
            else splitLinesFrom (cur ++ String c EmptyString) r
        | EmptyString => [cur ++ String c EmptyString]
        end
  end.

Definition splitLines (text : string) : list string :=
  splitLinesFrom EmptyString text.

(** [String(n)] for an integer [n], and [s.padStart(2, '0')]. *)
Definition ofInt (n : Z) : string := NilZero.string_of_int (Z.to_int n).

Definition padStart2 (s : string) : string :=
  match s with
  | EmptyString => "00"
  | String c EmptyString => String "0" s
  | _ => s
  end.

End JsString.

(** ** The line tokenizer, [parseCSVLine] *)

Module Tokenizer.
Import JsString.

(** The three variables of the loop: [result], [current], [inQuotes]. *)
Record Scan := mkScan
  { result : list string; current : string; inQuotes : bool }.

Definition start : Scan := mkScan [] EmptyString false.

(** One turn of the [for] loop on the character [char]. *)
Definition step (char : ascii) (st : Scan) : Scan :=
  if Ascii.eqb char quote then
    mkScan (result st) (current st) (negb (inQuotes st))
  else if Ascii.eqb char comma && negb (inQuotes st) then
    mkScan (result st ++ [current st])%list EmptyString (inQuotes st)
  else
    mkScan (result st) (current st ++ String char EmptyString) (inQuotes st).

Fixpoint scan (line : string) (st : Scan) : Scan :=
  match line with
  | EmptyString => st
  | String char rest => scan rest (step char st)
  end.

(** The array [result] after the final [result.push(current)]. *)
Definition rawFields (line : string) : list string :=
  let st := scan line start in (result st ++ [current st])%list.

(** The clean-up of one field. *)
Definition cleanField (val : string) : string :=
  let val := trim val in
  let val :=
    if startsWithChar quote val && endsWithChar quote val
    then slice_1_m1 val else val in
  filter (fun c => negb (Ascii.eqb c quote || Ascii.eqb c CR)) val.

Definition parseCSVLine (line : string) : list string :=
  List.map cleanField (rawFields line).

(** The commas of [line] that stand outside a quoted span, counted from
    the text alone: a comma is outside when an even number of quote
    characters precedes it. *)
Fixpoint outsideCommas (quotesBefore : nat) (line : string) : nat :=
  match line with
  | EmptyString => O
  | String c r =>
      if Ascii.eqb c quote then outsideCommas (S quotesBefore) r
      else if Ascii.eqb c comma && Nat.even quotesBefore
           then S (outsideCommas quotesBefore r)
           else outsideCommas quotesBefore r
  end.

End Tokenizer.

(** ** Numbers of the host language *)

Module Number.
Import JsString.

Definition prec : Z := 53.
Definition emax : Z := 1024.

Definition number : Type := spec_float.

Definition zero : number := S754_zero false.
Definition NaN : number := S754_nan.
Definition Infinity : number := S754_infinity false.

(** [x + y] *)
Definition add (x y : number) : number := SFadd prec emax x y.

(** [isNaN(x)] *)
Definition isNaN (x : number) : bool :=
  match x with S754_nan => true | _ => false end.

(** [!x] for a number: the falsy numbers are the two zeros and NaN. *)
Definition falsy (x : number) : bool :=
  match x with S754_zero _ | S754_nan => true | _ => false end.

Definition isFinite (x : number) : bool :=
  match x with S754_zero _ | S754_finite _ _ _ => true | _ => false end.

(** The number nearest to the integer [z] (ties to even). *)
Definition ofZ (z : Z) : number := binary_normalize prec emax z 0 false.

(** The integer a finite number with no fractional part stands for (the
    integer part of the others), and the numbers that are integers. *)
Definition toZ (x : number) : Z :=
  match x with
  | S754_finite s m e =>
      cond_Zopp s (if 0 <=? e then Zpos m * 2 ^ e else Zpos m / 2 ^ (- e))
  | _ => 0
  end.

Definition isInteger (x : number) : Prop := x = ofZ (toZ x).

(** [c * 2^n], and the normal form of the number [+/- c] for an integer
    [c] of at most 53 binary digits: mantissa [c] shifted to 53 digits. *)
Definition shl (c : positive) (n : Z) : positive := Pos.shiftl c (Z.to_N n).

Definition normal (s : bool) (c : positive) : number :=
  let d := Zpos (digits2_pos c) in
  S754_finite s (shl c (prec - d)) (d - prec).

(** The rational a finite number stands for. *)
Definition toQ (x : number) : option Q :=
  match x with
  | S754_zero _ => Some 0%Q
  | S754_finite s m e =>
      let n := cond_Zopp s (Zpos m) in
      Some (if 0 <=? e then inject_Z (n * 2 ^ e)
            else Qred (Qmake n (Z.to_pos (2 ^ (- e)))))
  | _ => None
  end.

(** The value of a run of decimal digits, most significant first. *)
Fixpoint digitsValue (acc : Z) (s : string) : Z :=
  match s with
  | EmptyString => acc
  | String c r => digitsValue (10 * acc + (Z.of_N (code c) - 48)) r
  end.

(** The longest run of decimal digits at the head of [s], and the rest. *)
Fixpoint spanDigits (s : string) : string * string :=
  match s with
  | EmptyString => (EmptyString, EmptyString)
  | String c r =>
      if isDigit c
      then let '(d, t) := spanDigits r in (String c d, t)
      else (EmptyString, s)
  end.

(** The number nearest to [+/- m * 10^e] for an integer [m >= 0] (ties to
    even), as the engines of the host round a decimal literal: the quotient
    is taken with 1075 binary places, below the last place of every
    binary64 number, and a lost remainder is kept as a sticky last bit. *)
Definition ofDecimal (neg : bool) (m e : Z) : number :=
  if m =? 0 then S754_zero neg
  else
    let num := m * 10 ^ (Z.max e 0) * 2 ^ 1075 in
    let den := 10 ^ (Z.max (- e) 0) in
    let q := num / den in
    let sticky := if num mod den =? 0 then 0 else 1 in
    binary_normalize prec emax (cond_Zopp neg (2 * q + sticky)) (-1076) neg.

(** An ExponentPart at the head of [s]: [e] or [E], an optional sign and
    at least one digit; [0] when there is none. *)
Definition exponentPart (s : string) : Z :=
  match s with
  | String c r =>
      if Ascii.eqb c "e" || Ascii.eqb c "E" then
        let '(neg, r') :=
          match r with
          | String "+" t => (false, t)
          | String "-" t => (true, t)
          | _ => (false, r)
          end in
        let '(ds, _) := spanDigits r' in
        if isEmpty ds then 0 else cond_Zopp neg (digitsValue 0 ds)
      else 0
  | EmptyString => 0
  end.

(** The value of the longest prefix of [s] that is a
    StrUnsignedDecimalLiteral, [NaN] when no prefix is one. *)
Definition unsignedLiteral (neg : bool) (s : string) : number :=
  if prefix "Infinity" s then S754_infinity neg
  else
    let '(int, r) := spanDigits s in
    let '(frac, r') :=
      match r with
      | String "." t => spanDigits t
      | _ => (EmptyString, r)
      end in
    if isEmpty int && isEmpty frac then NaN
    else
      ofDecimal neg (digitsValue 0 (int ++ frac))
                (exponentPart r' - Z.of_nat (String.length frac)).

(** [parseFloat(s)] *)
Definition parseFloat (s : string) : number :=
  match trimStart s with
  | String "+" r => unsignedLiteral false r
  | String "-" r => unsignedLiteral true r
  | t => unsignedLiteral false t
  end.

End Number.

(** ** Objects used as records, and sets *)

Module Obj.

(** A [Record<string, V>]: own properties in insertion order. *)
Definition t (V : Type) : Type := list (string * V).

(** [o[k]] *)
Fixpoint get {V} (o : t V) (k : string) : option V :=
  match o with
  | [] => None
  | (k', v) :: r => if String.eqb k' k then Some v else get r k
  end.

(** [o[k] = v]: an own property keeps its place, a new one goes last. *)
Fixpoint set {V} (o : t V) (k : string) (v : V) : t V :=
  match o with
  | [] => [(k, v)]
  | (k', v') :: r =>
      if String.eqb k' k then (k', v) :: r else (k', v') :: set r k v
  end.

(** [Object.keys(o)] *)
Definition keys {V} (o : t V) : list string := List.map fst o.

(** [s.add(x)] on a [Set<string>], in insertion order. *)
Fixpoint setAdd (s : list string) (x : string) : list string :=
  match s with
  | [] => [x]
  | y :: r => if String.eqb y x then s else y :: setAdd r x
  end.

End Obj.

(** ** Sorting *)

Module Sorting.

Section Sort.
Context {A : Type}.
(** A comparator in the convention of [Array.prototype.sort]: negative,
    zero or positive. *)
Variable cmp : A -> A -> Z.

Fixpoint insert (x : A) (l : list A) : list A :=
  match l with
  | [] => [x]
  | y :: r => if 0 <? cmp x y then y :: insert x r else x :: l
  end.

(** [a.sort(cmp)]: the host's sort is stable; insertion is. *)
Definition sort (l : list A) : list A := fold_right insert [] l.
End Sort.

(** The default comparison of [a.sort()] on strings: by code units. *)
Definition codeUnitCompare (a b : string) : Z :=
  match String.compare a b with Lt => -1 | Eq => 0 | Gt => 1 end.

End Sorting.

(** ** The data model, [src/types.ts] *)

Record MonthlyData := mkMonthlyData { date : string; amount : Number.number }.

Record ParsedDataSet := mkParsedDataSet
  { totalByDate : list MonthlyData;
    byClass : Obj.t (list MonthlyData);
    availableClasses : list string }.

(** The reasons the handler rejects with, in the order of the source.  No
    statement of the handler throws on the inputs of the embedding, so the
    rejection of its [catch] clause does not occur; [reader.onerror] belongs
    to the reading of the file, before the handler. *)
Inductive ParseError :=
| EmptyFile
| NotEnoughLines
| MissingColumns (headerLine : string)
| NoProcessableData.

(** The settled promise. *)
Inductive Outcome :=
| Resolved (data : ParsedDataSet)
| Rejected (error : ParseError).

(** The text of each rejection (UTF-8). *)
Definition message (e : ParseError) : string :=
  match e with
  | EmptyFile => "ไฟล์ CSV ว่างเปล่า"
  | NotEnoughLines => "ไฟล์มีข้อมูลไม่เพียงพอ (ต้องมี Header และ Data)"
  | MissingColumns headerLine =>
      "รูปแบบไฟล์ CSV ไม่ถูกต้อง: ขาดคอลัมน์จำเป็น 'billPeriod' หรือ 'amount' (Headers Found: "
      ++ headerLine ++ ")"
  | NoProcessableData =>
      "ไม่พบข้อมูลที่สามารถประมวลผลได้ ตรวจสอบ format ของ billPeriod (YYYYMM) และ amount"
  end.

(** ** The engine, [parseCSV] *)

Module Engine.
Import JsString Number Tokenizer.

(** *** Header resolution *)

(** [h.toLowerCase().replace(/[^a-z0-9]/g, '')] *)
Definition normalizeHeader (h : string) : string :=
  filter (fun c => isLower c || isDigit c) (toLowerCase h).

Definition headersOf (headerLine : string) : list string :=
  List.map normalizeHeader (parseCSVLine headerLine).

Record Columns := mkColumns
  { dateIndex : Z; amountIndex : Z; classIndex : Z }.

Definition resolveColumns (headers : list string) : Columns :=
  let dateIndex := indexOf headers "billperiod" in
  let dateIndex :=
    if dateIndex =? -1 then indexOf headers "monthly" else dateIndex in
  let amountIndex := indexOf headers "amount" in
  let classIndex := indexOf headers "accountclass" in
  let classIndex :=
    if classIndex =? -1 then indexOf headers "actcode" else classIndex in
  let classIndex :=
    if classIndex =? -1 then indexOf headers "account_class"
    else classIndex in
  mkColumns dateIndex amountIndex classIndex.

(** *** Date normalization *)

(** The branch of the [if ... else if] chain that a raw date takes. *)
Inductive DateRule := SixDigits | EightDigits | Calendar | NoRule.

(** [rawDate.replace(/[^0-9]/g, '')] *)
Definition cleanDateOf (rawDate : string) : string := filter isDigit rawDate.

Definition dateRule (rawDate : string) : DateRule :=
  let cleanDate := cleanDateOf rawDate in
  if (String.length cleanDate =? 6)%nat then SixDigits
  else if (String.length cleanDate =? 8)%nat then EightDigits
  else if includesChar "-" rawDate || includesChar "/" rawDate then Calendar
  else NoRule.

(** *** Amount normalization *)

(** [parseFloat(rawAmount.replace(/,/g, ''))] *)
Definition amountOf (rawAmount : string) : number :=
  parseFloat (filter (fun ch => negb (Ascii.eqb ch comma)) rawAmount).

(** A validated row, as the aggregation sees it. *)
Record Row := mkRow
  { dateKey : string; rowAmount : number; className : string }.

(** The accumulators of the loop. *)
Record Acc := mkAcc
  { totalMap : Obj.t number;
    classMap : Obj.t (Obj.t number);
    foundClasses : list string;
    validRowCount : Z }.

Definition emptyAcc : Acc := mkAcc [] [] [] 0.

(** [if (!o[k]) o[k] = 0; o[k] += amount;] *)
Definition accumulate (o : Obj.t number) (k : string) (amount : number)
  : Obj.t number :=
  let o :=
    match Obj.get o k with
    | Some v => if falsy v then Obj.set o k zero else o
    | None => Obj.set o k zero
    end in
  Obj.set o k (add (match Obj.get o k with Some v => v | None => NaN end)
                   amount).

(** The body of [if (!isNaN(amount)) { ... }]. *)
Definition aggregate (acc : Acc) (r : Row) : Acc :=
  let totalMap := accumulate (totalMap acc) (dateKey r) (rowAmount r) in
  let classMap :=
    match Obj.get (classMap acc) (className r) with
    | Some _ => classMap acc
    | None => Obj.set (classMap acc) (className r) []
    end in
  let classMap :=
    Obj.set classMap (className r)
      (accumulate
         (match Obj.get classMap (className r) with
          | Some o => o
          | None => []
          end)
         (dateKey r) (rowAmount r)) in
  mkAcc totalMap classMap
        (Obj.setAdd (foundClasses acc) (className r))
        (validRowCount acc + 1).

Section Host.

(** [new Date(s)]: [None] when [isNaN(d.getTime())], else
    [(d.getFullYear(), d.getMonth())]. *)
Variable newDate : string -> option (Z * Z).

(** [a.localeCompare(b)] *)
Variable localeCompare : string -> string -> Z.

(** The month key of a raw date, [''] when no rule gives one. *)
Definition dateKeyOf (rawDate : string) : string :=
  let cleanDate := cleanDateOf rawDate in
  match dateRule rawDate with
  | SixDigits | EightDigits =>
      let y := substring 0 4 cleanDate in
      let m := substring 4 2 cleanDate in
      y ++ "-" ++ m
  | Calendar =>
      match newDate rawDate with
      | Some (y, m) => ofInt y ++ "-" ++ padStart2 (ofInt (m + 1))
      | None => EmptyString
      end
  | NoRule => EmptyString
  end.

(** The raw class field of a row with the fields [cols]:
    [classIndex !== -1 ? cols[classIndex] : 'Unclassified'] *)
Definition rawClassOf (c : Columns) (cols : list string) : option string :=
  if negb (classIndex c =? -1) then at_ cols (classIndex c)
  else Some "Unclassified".

(** The class name of a row from its raw class field. *)
Definition classNameOf (rawClass : option string) : string :=
  match rawClass with
  | Some c =>
      if negb (isEmpty c) && negb (isEmpty (trim c)) then trim c
      else "Unknown"
  | None => "Unknown"
  end.

(** The loop body up to the aggregation: the validated row of a line,
    [None] where the source takes [continue] or finds a NaN amount. *)
Definition readRow (c : Columns) (rawLine : string) : option Row :=
  let line := trim rawLine in
  if isEmpty line then None
  else
    let cols := parseCSVLine line in
    if Z.of_nat (List.length cols) <=? Z.max (dateIndex c) (amountIndex c)
    then None
    else
      let rawDate := at_ cols (dateIndex c) in
      let rawAmount := at_ cols (amountIndex c) in
      let rawClass := rawClassOf c cols in
      match rawDate, rawAmount with
      | Some rawDate, Some rawAmount =>
          if isEmpty rawDate || isEmpty rawAmount then None
          else
            let dateKey := dateKeyOf rawDate in
            if isEmpty dateKey then None
            else
              let amount := amountOf rawAmount in
              let className := classNameOf rawClass in
              if negb (isNaN amount)
              then Some (mkRow dateKey amount className)
              else None
      | _, _ => None
      end.

(** One turn of the loop over the data lines. *)
Definition processLine (c : Columns) (acc : Acc) (rawLine : string) : Acc :=
  match readRow c rawLine with
  | Some r => aggregate acc r
  | None => acc
  end.

(** The rows of the data lines that reach the aggregation, in order. *)
Definition validRows (c : Columns) (dataLines : list string) : list Row :=
  flat_map (fun l => match readRow c l with Some r => [r] | None => [] end)
           dataLines.

(** *** Assembly *)

Definition sortFn (a b : MonthlyData) : Z :=
  localeCompare (date a) (date b).

(** [Object.entries(o).map(([date, amount]) => ({date, amount})).sort(sortFn)] *)
Definition series (o : Obj.t number) : list MonthlyData :=
  Sorting.sort sortFn (List.map (fun e => mkMonthlyData (fst e) (snd e)) o).

Definition assemble (acc : Acc) : ParsedDataSet :=
  mkParsedDataSet
    (series (totalMap acc))
    (fold_left
       (fun byClass cls =>
          Obj.set byClass cls
            (series (match Obj.get (classMap acc) cls with
                     | Some o => o
                     | None => []
                     end)))
       (foundClasses acc) [])
    (Sorting.sort Sorting.codeUnitCompare (foundClasses acc)).

(** *** The handler of [reader.onload], from the text of the file *)

Definition parseCSV (text : string) : Outcome :=
  if isEmpty (trim text) then Rejected EmptyFile
  else
    let lines := splitLines text in
    if (List.length lines <? 2)%nat then Rejected NotEnoughLines
    else
      let headerLine := hd EmptyString lines in
      let c := resolveColumns (headersOf headerLine) in
      if (dateIndex c =? -1) || (amountIndex c =? -1)
      then Rejected (MissingColumns headerLine)
      else
        let acc := fold_left (processLine c) (tl lines) emptyAcc in
        if validRowCount acc =? 0 then Rejected NoProcessableData
        else Resolved (assemble acc).

(** The header line of a text, the columns it resolves, and the rows of
    the text that reach the aggregation. *)
Definition headerLineOf (text : string) : string :=
  hd EmptyString (splitLines text).

Definition columnsOf (text : string) : Columns :=
  resolveColumns (headersOf (headerLineOf text)).

Definition dataRows (text : string) : list Row :=
  validRows (columnsOf text) (tl (splitLines text)).

End Host.

(** *** Vocabulary of the properties *)

(** The characters a month key is written with: digits and the hyphen. *)
Definition keyText (s : string) : bool :=
  every (fun c => isDigit c || Ascii.eqb c "-") s.

Definition keyed (p : MonthlyData) : Prop := keyText (date p) = true.

(** A record whose keys are distinct month keys, and accumulators whose
    records all are. *)
Definition monthKeyed (o : Obj.t number) : Prop :=
  NoDup (Obj.keys o) /\ Forall (fun k => keyText k = true) (Obj.keys o).

Definition wellKeyed (acc : Acc) : Prop :=
  monthKeyed (totalMap acc)
  /\ forall cls o, Obj.get (classMap acc) cls = Some o -> monthKeyed o.

(** Order of two points by the code units of their dates, and a series in
    strictly ascending order of dates. *)
Definition dateBefore (p q : MonthlyData) : Prop :=
  String.compare (date p) (date q) = Lt.

Definition strictlyAscending (s : list MonthlyData) : Prop :=
  StronglySorted dateBefore s.


Definition classRows (cls : string) (rows : list Row) : list Row :=
  List.filter (fun r => String.eqb (className r) cls) rows.





(** One record after the loop has accumulated [rows] into it. *)
Definition accumulateAll (o : Obj.t number) (rows : list Row) : Obj.t number :=
  fold_left (fun o r => accumulate o (dateKey r) (rowAmount r)) rows o.



End Engine.

(** ** More of the host language, for the service and the application *)

Module JsText.

(** [s.includes(t)] *)
Fixpoint includes (t s : string) : bool :=
  prefix t s
  || match s with
     | EmptyString => false
     | String _ r => includes t r
     end.

(** [a.slice(-n)]: the last [n] elements, all of them when there are
    fewer. *)
Definition sliceLast {A} (n : nat) (a : list A) : list A :=
  skipn (List.length a - n) a.

(** The number of characters [c] in [s]. *)
Fixpoint countChar (c : ascii) (s : string) : nat :=
  match s with
  | EmptyString => O
  | String d r => if Ascii.eqb d c then S (countChar c r) else countChar c r
  end.

End JsText.

(** ** The forecasting service, [src/services/geminiService.ts] *)

Module Forecast.
Import JsString Number JsText.

Record ForecastResult := mkForecastResult
  { forecast : list MonthlyData; reasoning : string; trend : string }.

(** The errors [getForecast] throws, in the order of the source. *)
Inductive ForecastError :=
| NoApiKey
| ClientInitFailed (initMessage : string)
| NoHistory
| NotEnoughHistory (months : nat)
| RateLimited
| AnalysisFailed (detail : string).

(** The text of each error (UTF-8). *)
Definition errorMessage (e : ForecastError) : string :=
  match e with
  | NoApiKey =>
      "ไม่พบ API Key (process.env.API_KEY) กรุณาตรวจสอบการตั้งค่า Environment Variables"
  | ClientInitFailed m => "ไม่สามารถเชื่อมต่อกับ Gemini API ได้: " ++ m
  | NoHistory => "ไม่พบข้อมูลสำหรับการพยากรณ์"
  | NotEnoughHistory n =>
      "ข้อมูลไม่เพียงพอ: มีข้อมูลเพียง " ++ ofInt (Z.of_nat n)
      ++ " เดือน (ต้องการอย่างน้อย 6 เดือนเพื่อการพยากรณ์ที่แม่นยำ)"
  | RateLimited =>
      "ระบบกำลังทำงานหนักเกินไป (Rate Limit) กรุณารอสักครู่แล้วลองใหม่"
  | AnalysisFailed d => "AI ไม่สามารถวิเคราะห์ข้อมูลได้ในขณะนี้: " ++ d
  end.

(** The parts of the prompt that vary: the segment, the history sent and
    the date the forecast starts after. *)
Record Request := mkRequest
  { segment : string; recentHistory : list MonthlyData; lastDate : string }.

(** What the call of the model does: it throws an error with or without a
    message, or answers with or without a text. *)
Inductive Reply :=
| Throws (message : option string)
| Responds (text : option string).

(** The [catch] clause around the call: the error thrown for the message
    [error.message] of the error caught. *)
Definition failure (message : option string) : ForecastError :=
  match message with
  | Some (String c m) =>
      if includes "429" (String c m) then RateLimited
      else AnalysisFailed (String c m)
  | _ => AnalysisFailed "Unknown Error"
  end.

(** The history sent and the date of its last point. *)
Definition requestOf (history : list MonthlyData) (segmentName : string)
  : Request :=
  let recentHistory := sliceLast 36 history in
  let lastDate :=
    if (0 <? List.length recentHistory)%nat
    then date (nth (List.length recentHistory - 1) recentHistory
                   (mkMonthlyData EmptyString zero))
    else "Unknown" in
  mkRequest segmentName recentHistory lastDate.

Section Collaborators.

(** [new GoogleGenAI({ apiKey })]: [Some m] when the constructor throws,
    [m] being the text of [initError.message]. *)
Variable newClient : string -> option string.

(** [await ai.models.generateContent(...)] and [response.text]. *)
Variable generateContent : Request -> Reply.

(** [JSON.parse(text)]: the value, or the message of the error thrown. *)
Variable jsonParse : string -> ForecastResult + string.

(** [getForecast(history, segmentName)], from the value of
    [process.env.API_KEY]; [inl] is the value returned, [inr] the error
    thrown. *)
Definition getForecast (apiKey : option string) (history : list MonthlyData)
  (segmentName : string) : ForecastResult + ForecastError :=
  match apiKey with
  | None => inr NoApiKey
  | Some key =>
      if isEmpty key || isEmpty (trim key) then inr NoApiKey
      else
        match newClient key with
        | Some m => inr (ClientInitFailed m)
        | None =>
            if (List.length history =? 0)%nat then inr NoHistory
            else if (List.length history <? 6)%nat
            then inr (NotEnoughHistory (List.length history))
            else
              match generateContent (requestOf history segmentName) with
              | Throws m => inr (failure m)
              | Responds None | Responds (Some EmptyString) =>
                  inr (failure (Some "Empty response from AI model"))
              | Responds (Some text) =>
                  match jsonParse text with
                  | inl result => inl result
                  | inr m => inr (failure (Some m))
                  end
              end
        end
  end.

End Collaborators.

End Forecast.

(** ** The application, [src/App.tsx] *)

Module App.
Import JsString Number JsText.

(** The icons of [renderTrendIcon]. *)
Inductive Icon := TrendingUp | TrendingDown | Minus.

(** [renderTrendIcon(trend)] *)
Definition renderTrendIcon (trend : option string) : Icon :=
  let t := match trend with Some s => toLowerCase s | None => EmptyString end in
  if includes "increas" t || includes "up" t
     || includes "grow" t
  then TrendingUp
  else if includes "decreas" t || includes "down" t
          || includes "drop" t
  then TrendingDown
  else Minus.

(** [getLastHistoryDate()] *)
Definition getLastHistoryDate (currentHistory : list MonthlyData)
  : option string :=
  if (List.length currentHistory =? 0)%nat then None
  else Some (date (nth (List.length currentHistory - 1) currentHistory
                       (mkMonthlyData EmptyString zero))).


(** What [handleClassChange] does once the class is selected. *)
Inductive Effect :=
| Analyze (data : list MonthlyData) (segmentName : string)
| NoDataForClass
| Nothing.

(** [handleClassChange], from the data set held and the value selected. *)
Definition handleClassChange (fullDataset : option ParsedDataSet)
  (cls : string) : Effect :=
  match fullDataset with
  | Some d =>
      let dataToAnalyze :=
        if String.eqb cls "ALL" then totalByDate d
        else match Obj.get (byClass d) cls with
             | Some s => s
             | None => []
             end in
      let segmentName :=
        if String.eqb cls "ALL" then "Total Portfolio"
        else "Account Class: " ++ cls in
      if (0 <? List.length dataToAnalyze)%nat
      then Analyze dataToAnalyze segmentName
      else NoDataForClass
  | None => Nothing
  end.

(** The values of the select box: ["ALL"], then the classes. *)
Definition options (d : ParsedDataSet) : list string :=
  "ALL" :: availableClasses d.

Record ChartDataPoint := mkChartDataPoint
  { date : string; actual : option number; forecast : option number }.

(** [combined[combined.length - 1].forecast = v] *)
Fixpoint setLastForecast (v : number) (combined : list ChartDataPoint)
  : list ChartDataPoint :=
  match combined with
  | [] => []
  | [p] => [mkChartDataPoint (date p) (actual p) (Some v)]
  | p :: r => p :: setLastForecast v r
  end.

(** The body of the [useMemo] that builds [chartData]. *)
Definition chartData (currentHistory : list MonthlyData)
  (forecastResult : option Forecast.ForecastResult) : list ChartDataPoint :=
  if (List.length currentHistory =? 0)%nat then []
  else
    let combined :=
      List.map
        (fun item =>
           match item with
           | mkMonthlyData d a => mkChartDataPoint d (Some a) None
           end)
        currentHistory in
    match forecastResult with
    | Some result =>
        let combined :=
          if (0 <? List.length currentHistory)%nat
          then setLastForecast
                 (amount (nth (List.length currentHistory - 1) currentHistory
                              (mkMonthlyData EmptyString zero)))
                 combined
          else combined in
        (combined
         ++ List.map
              (fun item =>
                 match item with
                 | mkMonthlyData d a => mkChartDataPoint d None (Some a)
                 end)
              (Forecast.forecast result))%list
    | None => combined
    end.

End App.

(** * Properties *)

Import JsString Number Tokenizer Engine.

(** ** Strings *)

Module StringFacts.

Lemma append_empty_r (s : string) : s ++ EmptyString = s.
Proof. induction s as [|c s IH]; simpl; [reflexivity | now rewrite IH]. Qed.

Lemma append_assoc (a b c : string) : a ++ (b ++ c) = (a ++ b) ++ c.
Proof. induction a as [|x a IH]; simpl; [reflexivity | now rewrite IH]. Qed.

Lemma length_append (a b : string) :
  String.length (a ++ b) = (String.length a + String.length b)%nat.
Proof. induction a as [|x a IH]; simpl; [reflexivity | now rewrite IH]. Qed.

End StringFacts.

(** ** Line tokenizer *)

Module TokenizerFacts.
Import StringFacts.

Lemma concat_cons_snoc (sep x a : string) (l : list string) :
  concat sep (x :: l ++ [a]) = x ++ sep ++ concat sep (l ++ [a]).
Proof. destruct l; reflexivity. Qed.

Lemma concat_snoc_app (sep a b : string) (l : list string) :
  concat sep (l ++ [a ++ b]) = concat sep (l ++ [a]) ++ b.
Proof.
  induction l as [|x l IH]; [reflexivity|].
  rewrite <- !app_comm_cons, !concat_cons_snoc, IH.
  now rewrite <- !append_assoc.
Qed.

Lemma concat_snoc_empty (sep a : string) (l : list string) :
  concat sep ((l ++ [a]) ++ [EmptyString]) = concat sep (l ++ [a]) ++ sep.
Proof.
  induction l as [|x l IH].
  - simpl. now rewrite append_empty_r.
  - rewrite <- !app_comm_cons.
    rewrite (concat_cons_snoc sep x EmptyString (l ++ [a])).
    rewrite (concat_cons_snoc sep x a l), IH.
    now rewrite <- !append_assoc.
Qed.

(** The loop adds one field for every comma outside quotes. *)
Lemma scan_fields (line : string) : forall st q,
  inQuotes st = Nat.odd q ->
  List.length (result (scan line st))
  = (List.length (result st) + outsideCommas q line)%nat.
Proof.
  induction line as [|c r IH]; intros st q Hq; simpl.
  - lia.
  - unfold step. destruct (Ascii.eqb c quote) eqn:Eq.
    + rewrite (IH _ (S q)); simpl; [reflexivity|].
      rewrite Hq, Nat.odd_succ, <- Nat.negb_odd. reflexivity.
    + rewrite <- Nat.negb_odd, <- Hq.
      destruct (Ascii.eqb c comma && negb (inQuotes st)) eqn:Ec.
      * rewrite (IH _ q) by exact Hq. simpl. rewrite length_app. simpl. lia.
      * rewrite (IH _ q) by exact Hq. reflexivity.
Qed.

(** Every character but the quotes ends in a field or is a separator. *)
Lemma scan_text (line : string) : forall st,
  concat "," (result (scan line st) ++ [current (scan line st)])
  = concat "," (result st ++ [current st])
    ++ filter (fun c => negb (Ascii.eqb c quote)) line.
Proof.
  induction line as [|c r IH]; intros st; simpl.
  - now rewrite append_empty_r.
  - rewrite IH. unfold step. destruct (Ascii.eqb c quote) eqn:Eq; simpl.
    + reflexivity.
    + destruct (Ascii.eqb c comma && negb (inQuotes st)) eqn:Ec; simpl.
      * apply andb_prop in Ec. destruct Ec as [Ec _].
        apply Ascii.eqb_eq in Ec. subst c.
        rewrite concat_snoc_empty, <- append_assoc. reflexivity.
      * rewrite concat_snoc_app, <- append_assoc. reflexivity.
Qed.

End TokenizerFacts.

(** C6. The tokenizer splits on the comma only outside a quoted span: a
    quote character toggles the inside-quotes state and is not field text;
    a comma inside quotes is appended to the current field and a comma
    outside quotes closes it; a line yields one field more than it has
    commas outside quotes, and its raw fields joined by commas are the line
    without its quotes.  The quoted field "Revenue, Net" is one field with
    the value Revenue, Net. *)
Theorem C6_tokenizer_quoted_delimiter :
  (forall r c q, step quote (mkScan r c q) = mkScan r c (negb q))
  /\ (forall r c, step comma (mkScan r c true) = mkScan r (c ++ ",") true)
  /\ (forall r c,
        step comma (mkScan r c false) = mkScan (r ++ [c]) EmptyString false)
  /\ (forall line,
        List.length (parseCSVLine line) = S (outsideCommas 0 line))
  /\ (forall line,
        concat "," (rawFields line)
        = filter (fun c => negb (Ascii.eqb c quote)) line)
  /\ parseCSVLine (quoted "Revenue, Net") = ["Revenue, Net"]
  /\ parseCSVLine ("202309," ++ quoted "Revenue, Net" ++ ",1500")
     = ["202309"; "Revenue, Net"; "1500"].
Proof.
  repeat split; try reflexivity.
  - intros line. unfold parseCSVLine, rawFields.
    rewrite length_map, length_app.
    rewrite (TokenizerFacts.scan_fields line start 0 eq_refl). simpl. lia.
  - intros line. unfold rawFields.
    rewrite TokenizerFacts.scan_text. reflexivity.
Qed.

(** ** Date normalization *)

Section DateNormalization.

Variable newDate : string -> option (Z * Z).

(** C3. When stripping the non-digits of a raw date leaves exactly six
    digits, the month key is the first four, a hyphen and the last two;
    when it leaves exactly eight, the first six are used the same way.
    "202309", "20230915" and "2023-09-15" all yield "2023-09". *)
Theorem C3_digit_dates :
  (forall rawDate y1 y2 y3 y4 m1 m2,
      cleanDateOf rawDate
      = String y1 (String y2 (String y3 (String y4 (String m1 (String m2
          EmptyString))))) ->
      dateKeyOf newDate rawDate
      = String y1 (String y2 (String y3 (String y4 (String "-"
          (String m1 (String m2 EmptyString)))))))
  /\ (forall rawDate y1 y2 y3 y4 m1 m2 d1 d2,
      cleanDateOf rawDate
      = String y1 (String y2 (String y3 (String y4 (String m1 (String m2
          (String d1 (String d2 EmptyString))))))) ->
      dateKeyOf newDate rawDate
      = String y1 (String y2 (String y3 (String y4 (String "-"
          (String m1 (String m2 EmptyString)))))))
  /\ dateKeyOf newDate "202309" = "2023-09"
  /\ dateKeyOf newDate "20230915" = "2023-09"
  /\ dateKeyOf newDate "2023-09-15" = "2023-09".
Proof.
  repeat split; try reflexivity.
  - intros rawDate y1 y2 y3 y4 m1 m2 H.
    unfold dateKeyOf, dateRule. rewrite H. reflexivity.
  - intros rawDate y1 y2 y3 y4 m1 m2 d1 d2 H.
    unfold dateKeyOf, dateRule. rewrite H. reflexivity.
Qed.

(** C9, as amended.  Stripping the non-digits of "09/2023" leaves the six
    digits "092023", so the six-digit rule applies: the month key is
    "0920-23" and the calendar branch is not reached. *)
Theorem C9_slash_date_takes_six_digit_rule :
  cleanDateOf "09/2023" = "092023"
  /\ dateRule "09/2023" = SixDigits
  /\ dateKeyOf newDate "09/2023" = "0920-23".
Proof. repeat split. Qed.

End DateNormalization.

Lemma C3_digit_dates_witness :
  dateKeyOf (fun _ => None) "2023/09" = "2023-09"
  /\ dateKeyOf (fun _ => None) "15.09.2023" = "1509-20".
Proof.
  destruct (C3_digit_dates (fun _ => None)) as [H6 [H8 _]].
  split.
  - apply (H6 "2023/09"). reflexivity.
  - apply (H8 "15.09.2023" _ _ _ _ _ _ "2"%char "3"%char). reflexivity.
Defined.

(** C9 as stated fails: "09/2023" does not take the calendar branch. *)
Lemma C9_counterexample : dateRule "09/2023" <> Calendar.
Proof. discriminate. Qed.

(** ** Records *)

Module ObjFacts.

Lemma get_set_same {V} (o : Obj.t V) k v : Obj.get (Obj.set o k v) k = Some v.
Proof.
  induction o as [|[k' v'] o IH]; simpl.
  - now rewrite String.eqb_refl.
  - destruct (String.eqb k' k) eqn:E; simpl; rewrite E; auto.
Qed.

Lemma get_set_other {V} (o : Obj.t V) k k' v :
  k <> k' -> Obj.get (Obj.set o k v) k' = Obj.get o k'.
Proof.
  intros Hne. induction o as [|[k0 v0] o IH]; simpl.
  - destruct (String.eqb_spec k k'); [contradiction | reflexivity].
  - destruct (String.eqb_spec k0 k) as [->|Hk]; simpl.
    + destruct (String.eqb_spec k k'); [contradiction | reflexivity].
    + destruct (String.eqb_spec k0 k'); auto.
Qed.


End ObjFacts.

(** ** Row normalization *)

Section RowNormalization.

Variable newDate : string -> option (Z * Z).

(** What a validated row was read from. *)
Lemma readRow_inv c line r :
  readRow newDate c line = Some r ->
  exists rawDate rawAmount,
    at_ (parseCSVLine (trim line)) (dateIndex c) = Some rawDate
    /\ at_ (parseCSVLine (trim line)) (amountIndex c) = Some rawAmount
    /\ dateKey r = dateKeyOf newDate rawDate
    /\ isEmpty (dateKey r) = false
    /\ rowAmount r = amountOf rawAmount
    /\ isNaN (rowAmount r) = false
    /\ className r = classNameOf (rawClassOf c (parseCSVLine (trim line))).
Proof.
  unfold readRow. intros H.
  destruct (isEmpty (trim line)); [discriminate|].
  destruct (_ <=? _); [discriminate|].
  destruct (at_ _ (dateIndex c)) as [rawDate|]; [|discriminate].
  destruct (at_ _ (amountIndex c)) as [rawAmount|]; [|discriminate].
  destruct (isEmpty rawDate || isEmpty rawAmount); [discriminate|].
  destruct (isEmpty (dateKeyOf newDate rawDate)) eqn:Ek; [discriminate|].
  destruct (isNaN (amountOf rawAmount)) eqn:En; [discriminate|].
  injection H as <-. exists rawDate, rawAmount. simpl. auto 10.
Qed.




(** C8, as amended.  The amount of a row is its amount field without its
    commas, read by [parseFloat]: "1,234.50" is 1234.5.  A row whose amount
    reads as NaN is dropped, so no amount that reaches the aggregation is
    NaN; an infinite amount, as of the field "Infinity", is aggregated. *)
Theorem C8_amounts_are_not_NaN :
  amountOf "1,234.50" = S754_finite false 5429388417957888 (-42)
  /\ toQ (amountOf "1,234.50") = Some (2469 # 2)%Q
  /\ (forall c line r,
        readRow newDate c line = Some r ->
        isNaN (rowAmount r) = false
        /\ exists rawAmount,
            at_ (parseCSVLine (trim line)) (amountIndex c) = Some rawAmount
            /\ rowAmount r = amountOf rawAmount)
  /\ (forall c line rawAmount,
        at_ (parseCSVLine (trim line)) (amountIndex c) = Some rawAmount ->
        isNaN (amountOf rawAmount) = true ->
        readRow newDate c line = None)
  /\ (forall c dataLines r,
        In r (validRows newDate c dataLines) -> isNaN (rowAmount r) = false)
  /\ readRow newDate (mkColumns 0 1 (-1)) "202309,Infinity"
     = Some (mkRow "2023-09" Infinity "Unclassified").
Proof.
  split; [vm_compute; reflexivity|].
  split; [vm_compute; reflexivity|].
  split; [|split; [|split]].
  - intros c line r H.
    destruct (readRow_inv _ _ _ H) as (d & a & _ & Ha & _ & _ & Hv & Hn & _).
    split; [exact Hn|]. exists a. auto.
  - intros c line rawAmount Ha Hn. unfold readRow.
    destruct (isEmpty (trim line)); [reflexivity|].
    destruct (_ <=? _); [reflexivity|].
    destruct (at_ _ (dateIndex c)) as [rawDate|]; [|reflexivity].
    rewrite Ha.
    destruct (isEmpty rawDate || isEmpty rawAmount); [reflexivity|].
    destruct (isEmpty (dateKeyOf newDate rawDate)); [reflexivity|].
    rewrite Hn. reflexivity.
  - intros c dataLines r Hin. unfold validRows in Hin.
    apply in_flat_map in Hin. destruct Hin as (l & _ & Hr).
    destruct (readRow newDate c l) as [r'|] eqn:E; [|contradiction].
    destruct Hr as [<-|[]].
    now destruct (readRow_inv _ _ _ E) as (d & a & _ & _ & _ & _ & _ & Hn & _).
  - vm_compute. reflexivity.
Qed.

End RowNormalization.



Lemma C8_amounts_are_not_NaN_witness :
  isNaN (rowAmount (mkRow "2023-09" (ofZ 5) "Unclassified")) = false
  /\ readRow (fun _ => None) (mkColumns 0 1 (-1)) "202309,n/a" = None.
Proof.
  destruct (C8_amounts_are_not_NaN (fun _ => None))
    as (_ & _ & Hrow & Hskip & _).
  split.
  - apply (Hrow (mkColumns 0 1 (-1)) "202309,5"). vm_compute. reflexivity.
  - apply (Hskip (mkColumns 0 1 (-1)) "202309,n/a" "n/a");
      vm_compute; reflexivity.
Defined.

(** C8 as stated fails: the field "Infinity" gives a row whose amount is
    not finite, and the row is aggregated. *)
Lemma C8_counterexample :
  parseCSV (fun _ => None) Sorting.codeUnitCompare
    (fileOf ["billPeriod,amount"; "202309,Infinity"])
  = Resolved
      (mkParsedDataSet
         [mkMonthlyData "2023-09" Infinity]
         [("Unclassified", [mkMonthlyData "2023-09" Infinity])]
         ["Unclassified"])
  /\ ~ (forall newDate c line r,
          readRow newDate c line = Some r -> isFinite (rowAmount r) = true).
Proof.
  split; [vm_compute; reflexivity|].
  intros H.
  specialize (H (fun _ => None) (mkColumns 0 1 (-1)) "202309,Infinity"
                (mkRow "2023-09" Infinity "Unclassified")).
  discriminate H. vm_compute. reflexivity.
Qed.

(** ** The parse as a whole *)

Section Parse.

Variable newDate : string -> option (Z * Z).
Variable localeCompare : string -> string -> Z.

Lemma fold_processLine c (ls : list string) : forall acc,
  fold_left (processLine newDate c) ls acc
  = fold_left aggregate (validRows newDate c ls) acc.
Proof.
  induction ls as [|l ls IH]; intros acc; simpl; [reflexivity|].
  unfold processLine at 2. rewrite fold_left_app.
  destruct (readRow newDate c l); simpl; apply IH.
Qed.

Lemma validRowCount_fold (rows : list Row) : forall acc,
  validRowCount (fold_left aggregate rows acc)
  = validRowCount acc + Z.of_nat (List.length rows).
Proof.
  induction rows as [|r rows IH]; intros acc; simpl List.length.
  - simpl. lia.
  - simpl fold_left. rewrite IH. simpl. lia.
Qed.

(** The four ways the parse ends, in the order the source tests them. *)
Lemma parseCSV_cases text :
  parseCSV newDate localeCompare text =
  if isEmpty (trim text) then Rejected EmptyFile
  else if (List.length (splitLines text) <? 2)%nat then Rejected NotEnoughLines
  else if (dateIndex (columnsOf text) =? -1)
          || (amountIndex (columnsOf text) =? -1)
       then Rejected (MissingColumns (headerLineOf text))
  else match dataRows newDate text with
       | [] => Rejected NoProcessableData
       | rows => Resolved (assemble localeCompare
                             (fold_left aggregate rows emptyAcc))
       end.
Proof.
  unfold parseCSV, dataRows. fold (headerLineOf text). fold (columnsOf text).
  destruct (isEmpty (trim text)); [reflexivity|].
  destruct (_ <? _)%nat; [reflexivity|].
  destruct (_ || _); [reflexivity|].
  rewrite fold_processLine, validRowCount_fold. simpl.
  destruct (validRows _ _ _) as [|r rows]; [reflexivity|].
  destruct (Z.eqb_spec (Z.of_nat (List.length (r :: rows))) 0) as [E|_].
  - simpl List.length in E. lia.
  - reflexivity.
Qed.

(** C4, as amended.  When no row survives normalization the parse is
    rejected and returns no data set.  The rejection is the "no processable
    data" error, whose text names the expected format of the date
    (billPeriod (YYYYMM)), when the text is not blank, has at least two
    lines and resolves the date and amount columns: so for a header followed
    by a line break, or by rows whose dates cannot be read.  A header line
    alone, with no line break, is rejected earlier, for lack of lines. *)
Theorem C4_no_rows_is_rejected text :
  dataRows newDate text = [] ->
  (exists e, parseCSV newDate localeCompare text = Rejected e)
  /\ (isEmpty (trim text) = false ->
      (2 <= List.length (splitLines text))%nat ->
      dateIndex (columnsOf text) <> -1 ->
      amountIndex (columnsOf text) <> -1 ->
      parseCSV newDate localeCompare text = Rejected NoProcessableData)
  /\ (isEmpty (trim text) = false ->
      (List.length (splitLines text) < 2)%nat ->
      parseCSV newDate localeCompare text = Rejected NotEnoughLines)
  /\ index 0 "billPeriod (YYYYMM)" (message NoProcessableData) <> None.
Proof.
  intros Hrows. pose proof (parseCSV_cases text) as H.
  rewrite Hrows in H. split; [|split; [|split]].
  - rewrite H. repeat destruct (_ : bool); eauto.
  - intros Hne Hlen Hd Ha. rewrite H, Hne.
    destruct (Nat.ltb_spec (List.length (splitLines text)) 2); [lia|].
    destruct (Z.eqb_spec (dateIndex (columnsOf text)) (-1)); [contradiction|].
    destruct (Z.eqb_spec (amountIndex (columnsOf text)) (-1)); [contradiction|].
    reflexivity.
  - intros Hne Hlen. rewrite H, Hne.
    destruct (Nat.ltb_spec (List.length (splitLines text)) 2); [reflexivity|].
    lia.
  - vm_compute. discriminate.
Qed.

(** Rows of a file without class column all carry "Unclassified". *)
Lemma unclassified_rows c (ls : list string) r :
  classIndex c = -1 ->
  In r (validRows newDate c ls) -> className r = "Unclassified".
Proof.
  intros Hc Hin. unfold validRows in Hin.
  apply in_flat_map in Hin. destruct Hin as (l & _ & Hr).
  destruct (readRow newDate c l) as [r'|] eqn:E; [|contradiction].
  destruct Hr as [<-|[]].
  destruct (readRow_inv _ _ _ _ E) as (_ & _ & _ & _ & _ & _ & _ & _ & H).
  rewrite H. unfold rawClassOf. rewrite Hc. reflexivity.
Qed.

(** With a single class, the class map is the total map under that name. *)
Lemma single_class_fold cls (rows : list Row) : forall acc,
  Forall (fun r => className r = cls) rows ->
  (classMap acc = [] /\ totalMap acc = [] /\ foundClasses acc = []
   \/ classMap acc = [(cls, totalMap acc)] /\ foundClasses acc = [cls]) ->
  let acc' := fold_left aggregate rows acc in
  (rows <> [] ->
   classMap acc' = [(cls, totalMap acc')] /\ foundClasses acc' = [cls]).
Proof.
  induction rows as [|r rows IH]; intros acc Hall Hacc; simpl.
  - intros H. now contradiction H.
  - intros _. inversion Hall as [|? ? Hr Hrest]; subst.
    assert (Hstep : classMap (aggregate acc r)
                    = [(className r, totalMap (aggregate acc r))]
                    /\ foundClasses (aggregate acc r) = [className r]).
    { unfold aggregate. simpl.
      destruct Hacc as [(Hc & Ht & Hf)|(Hc & Hf)]; rewrite Hc, Hf; simpl.
      - rewrite Ht, !String.eqb_refl. simpl. rewrite ?String.eqb_refl. auto.
      - rewrite !String.eqb_refl. simpl. rewrite ?String.eqb_refl. auto. }
    destruct rows as [|r' rows']; [exact Hstep|].
    apply IH; [exact Hrest | right; exact Hstep | discriminate].
Qed.

(** C5. When the header resolves no date column or no amount column the
    parse is rejected before the loop over the data rows: for a text that
    is not blank and has two lines or more, with the error that reports the
    missing columns and quotes the header line.  A header without class
    column is no error: every row then carries the class "Unclassified",
    the parse resolves as soon as one row is valid, and the data set has
    this one class, whose series is the total series. *)
Theorem C5_header_resolution text :
  (dateIndex (columnsOf text) = -1 \/ amountIndex (columnsOf text) = -1 ->
   (parseCSV newDate localeCompare text = Rejected EmptyFile
    \/ parseCSV newDate localeCompare text = Rejected NotEnoughLines
    \/ parseCSV newDate localeCompare text
       = Rejected (MissingColumns (headerLineOf text)))
   /\ (isEmpty (trim text) = false ->
       (2 <= List.length (splitLines text))%nat ->
       parseCSV newDate localeCompare text
       = Rejected (MissingColumns (headerLineOf text))))
  /\ (classIndex (columnsOf text) = -1 ->
      (forall r, In r (dataRows newDate text) -> className r = "Unclassified")
      /\ (isEmpty (trim text) = false ->
          dateIndex (columnsOf text) <> -1 ->
          amountIndex (columnsOf text) <> -1 ->
          dataRows newDate text <> [] ->
          exists ds, parseCSV newDate localeCompare text = Resolved ds)
      /\ (forall ds,
            parseCSV newDate localeCompare text = Resolved ds ->
            availableClasses ds = ["Unclassified"]
            /\ byClass ds = [("Unclassified", totalByDate ds)])).
Proof.
  pose proof (parseCSV_cases text) as H. split.
  - intros Hmiss.
    assert (E : (dateIndex (columnsOf text) =? -1)
                || (amountIndex (columnsOf text) =? -1) = true).
    { apply orb_true_iff. destruct Hmiss as [-> | ->]; auto. }
    rewrite E in H. split.
    + rewrite H. destruct (isEmpty _); auto. destruct (_ <? _)%nat; auto.
    + intros Hne Hlen. rewrite H, Hne.
      destruct (Nat.ltb_spec (List.length (splitLines text)) 2); [lia|].
      reflexivity.
  - intros Hc. split; [|split].
    + intros r. apply unclassified_rows. exact Hc.
    + intros Hne Hd Ha Hrows. rewrite H, Hne.
      assert (Hlen : (List.length (splitLines text) <? 2)%nat = false).
      { apply Nat.ltb_ge. unfold dataRows in Hrows.
        destruct (splitLines text) as [|h [|l ls]]; simpl in *; try lia;
          now contradiction Hrows. }
      rewrite Hlen.
      destruct (Z.eqb_spec (dateIndex (columnsOf text)) (-1)); [contradiction|].
      destruct (Z.eqb_spec (amountIndex (columnsOf text)) (-1));
        [contradiction|].
      simpl. destruct (dataRows newDate text); [now contradiction Hrows|].
      eauto.
    + intros ds Hds. rewrite H in Hds.
      destruct (isEmpty _); [discriminate|].
      destruct (_ <? _)%nat; [discriminate|].
      destruct (_ || _); [discriminate|].
      destruct (dataRows newDate text) as [|r rows] eqn:Er; [discriminate|].
      injection Hds as <-.
      destruct (single_class_fold "Unclassified" (r :: rows) emptyAcc)
        as [Hcm Hfc]; [| left; auto | discriminate |].
      { apply Forall_forall. intros x Hx. rewrite <- Er in Hx.
        revert Hx. apply unclassified_rows. exact Hc. }
      simpl fold_left in Hcm, Hfc.
      unfold assemble. simpl. rewrite Hfc, Hcm. simpl. auto.
Qed.

End Parse.

Lemma C4_no_rows_is_rejected_witness :
  parseCSV (fun _ => None) Sorting.codeUnitCompare
    (fileOf ["billPeriod,amount"; "someday,5"; "2023,7"; ""])
  = Rejected NoProcessableData
  /\ parseCSV (fun _ => None) Sorting.codeUnitCompare "billPeriod,amount"
     = Rejected NotEnoughLines.
Proof.
  split.
  - apply (C4_no_rows_is_rejected (fun _ => None) Sorting.codeUnitCompare
             (fileOf ["billPeriod,amount"; "someday,5"; "2023,7"; ""])).
    + vm_compute. reflexivity.
    + vm_compute. reflexivity.
    + vm_compute. lia.
    + vm_compute. discriminate.
    + vm_compute. discriminate.
  - apply (C4_no_rows_is_rejected (fun _ => None) Sorting.codeUnitCompare
             "billPeriod,amount").
    + vm_compute. reflexivity.
    + vm_compute. reflexivity.
    + vm_compute. lia.
Defined.

(** C4 as stated fails: a header line alone, with no line break after it,
    has no surviving row and is rejected for lack of lines. *)
Lemma C4_counterexample :
  dataRows (fun _ => None) "billPeriod,amount" = []
  /\ parseCSV (fun _ => None) Sorting.codeUnitCompare "billPeriod,amount"
     = Rejected NotEnoughLines
  /\ ~ (forall newDate localeCompare text,
          dataRows newDate text = [] ->
          parseCSV newDate localeCompare text = Rejected NoProcessableData).
Proof.
  split; [reflexivity|]. split; [reflexivity|].
  intros H.
  specialize (H (fun _ => None) Sorting.codeUnitCompare "billPeriod,amount"
                eq_refl).
  discriminate H.
Qed.

Lemma C5_header_resolution_witness :
  parseCSV (fun _ => None) Sorting.codeUnitCompare
    (fileOf ["customer,amount"; "202309,5"])
  = Rejected (MissingColumns "customer,amount")
  /\ exists ds,
      parseCSV (fun _ => None) Sorting.codeUnitCompare
        (fileOf ["billPeriod,amount"; "202309,5"]) = Resolved ds
      /\ availableClasses ds = ["Unclassified"]
      /\ byClass ds = [("Unclassified", totalByDate ds)].
Proof.
  split.
  - apply (C5_header_resolution (fun _ => None) Sorting.codeUnitCompare
             (fileOf ["customer,amount"; "202309,5"])).
    + left. vm_compute. reflexivity.
    + vm_compute. reflexivity.
    + vm_compute. lia.
  - destruct (C5_header_resolution (fun _ => None) Sorting.codeUnitCompare
                (fileOf ["billPeriod,amount"; "202309,5"])) as [_ H].
    destruct H as (_ & Hres & Hds); [vm_compute; reflexivity|].
    destruct Hres as [ds E].
    + vm_compute. reflexivity.
    + vm_compute. discriminate.
    + vm_compute. discriminate.
    + vm_compute. discriminate.
    + exists ds. split; [exact E|]. apply Hds. exact E.
Defined.

(** ** Month keys *)

Module KeyFacts.

Lemma every_append p (a b : string) :
  every p (a ++ b) = every p a && every p b.
Proof.
  induction a as [|c a IH]; simpl; [reflexivity|].
  now rewrite IH, andb_assoc.
Qed.

Lemma every_filter p (s : string) : every p (filter p s) = true.
Proof.
  induction s as [|c s IH]; simpl; [reflexivity|].
  destruct (p c) eqn:E; simpl; [rewrite E|]; auto.
Qed.

Lemma every_substring p (s : string) : forall n m,
  every p s = true -> every p (substring n m s) = true.
Proof.
  induction s as [|c s IH]; intros n m H; simpl in *.
  - destruct n, m; reflexivity.
  - apply andb_prop in H. destruct H as [Hc Hs].
    destruct n; [destruct m; simpl; [reflexivity|]|]; auto.
    rewrite Hc. simpl. apply (IH 0%nat). exact Hs.
Qed.

Lemma every_weaken (p q : ascii -> bool) (s : string) :
  (forall c, p c = true -> q c = true) ->
  every p s = true -> every q s = true.
Proof.
  intros Hpq. induction s as [|c s IH]; simpl; [reflexivity|].
  intros H. apply andb_prop in H. destruct H as [Hc Hs].
  rewrite (Hpq _ Hc). simpl. auto.
Qed.

Lemma keyText_digits (s : string) : every isDigit s = true -> keyText s = true.
Proof.
  apply every_weaken. intros c ->. reflexivity.
Qed.

Lemma keyText_uint d : keyText (NilEmpty.string_of_uint d) = true.
Proof. induction d; simpl; auto. Qed.

Lemma keyText_nonempty_uint d : keyText (NilZero.string_of_uint d) = true.
Proof. destruct d; try reflexivity; apply keyText_uint. Qed.

Lemma keyText_ofInt n : keyText (ofInt n) = true.
Proof.
  unfold ofInt, NilZero.string_of_int.
  destruct (Z.to_int n) as [d|d]; [apply keyText_nonempty_uint|].
  change (keyText (NilZero.string_of_uint d) = true).
  apply keyText_nonempty_uint.
Qed.

Lemma keyText_padStart2 (s : string) :
  keyText s = true -> keyText (padStart2 s) = true.
Proof.
  destruct s as [|c [|d s]]; simpl; auto.
Qed.

(** Every month key is written with digits and hyphens. *)
Lemma keyText_dateKeyOf newDate rawDate :
  keyText (dateKeyOf newDate rawDate) = true.
Proof.
  assert (Hd : forall n m,
             keyText (substring n m (cleanDateOf rawDate)) = true).
  { intros n m. apply keyText_digits, every_substring, every_filter. }
  assert (Hdigits : keyText (substring 0 4 (cleanDateOf rawDate) ++ "-"
                             ++ substring 4 2 (cleanDateOf rawDate)) = true).
  { unfold keyText in *. rewrite !every_append, !Hd. reflexivity. }
  unfold dateKeyOf. destruct (dateRule rawDate); auto.
  destruct (newDate rawDate) as [[y m]|]; [|reflexivity].
  unfold keyText. rewrite !every_append.
  fold (keyText (ofInt y)). fold (keyText (padStart2 (ofInt (m + 1)))).
  now rewrite keyText_ofInt, keyText_padStart2 by apply keyText_ofInt.
Qed.

End KeyFacts.

(** ** Sorting a series *)

Module SortingFacts.

Section Insertion.

Context {A : Type}.
Variable cmp : A -> A -> Z.

Lemma insert_perm x (l : list A) : Permutation (Sorting.insert cmp x l) (x :: l).
Proof.
  induction l as [|y l IH]; simpl; [reflexivity|].
  destruct (0 <? cmp x y); [|reflexivity].
  rewrite IH. apply perm_swap.
Qed.

Lemma sort_perm (l : list A) : Permutation (Sorting.sort cmp l) l.
Proof.
  induction l as [|x l IH]; simpl; [reflexivity|].
  rewrite insert_perm. now apply perm_skip.
Qed.

End Insertion.

Lemma compare_trans a b c :
  String.compare a b = Lt -> String.compare b c = Lt -> String.compare a c = Lt.
Proof.
  intros H1 H2. apply OrderedTypeEx.String_as_OT.cmp_lt.
  apply OrderedTypeEx.String_as_OT.cmp_lt in H1, H2.
  eapply OrderedTypeEx.String_as_OT.lt_trans; eassumption.
Qed.

Section Series.

Variable localeCompare : string -> string -> Z.

(** The host orders month keys as their code units do. *)
Hypothesis localeCompare_keys : forall a b,
  keyText a = true -> keyText b = true ->
  Z.compare (localeCompare a b) 0 = String.compare a b.

Lemma insert_ascending x (l : list MonthlyData) :
  keyed x -> Forall keyed l -> ~ In (date x) (List.map date l) ->
  strictlyAscending l ->
  strictlyAscending (Sorting.insert (sortFn localeCompare) x l).
Proof.
  unfold strictlyAscending. intros Hx.
  induction l as [|y l IH]; intros Hl Hnin Hs; simpl.
  - repeat constructor.
  - inversion Hl as [|? ? Hy Hl']; subst.
    inversion Hs as [|? ? Hs' Hall]; subst.
    pose proof (localeCompare_keys _ _ Hx Hy) as Hc.
    unfold sortFn at 1.
    destruct (Z.ltb_spec 0 (localeCompare (date x) (date y))) as [Hgt|Hle].
    + assert (Hyx : dateBefore y x).
      { unfold dateBefore.
        rewrite OrderedTypeEx.String_as_OT.cmp_antisym.
        unfold OrderedTypeEx.String_as_OT.cmp. rewrite <- Hc.
        apply Z.compare_gt_iff in Hgt. now rewrite Hgt. }
      constructor.
      * apply IH; auto. simpl in Hnin. tauto.
      * eapply Permutation_Forall; [symmetry; apply insert_perm|].
        constructor; assumption.
    + assert (Hxy : dateBefore x y).
      { unfold dateBefore.
        destruct (String.compare (date x) (date y)) eqn:E; [|reflexivity|].
        - exfalso. apply Hnin. left. symmetry.
          now apply OrderedTypeEx.String_as_OT.cmp_eq.
        - apply Z.compare_gt_iff in Hc. lia. }
      constructor; [exact Hs|]. constructor; [exact Hxy|].
      eapply Forall_impl; [|exact Hall].
      intros z Hz. unfold dateBefore in *. eapply compare_trans; eassumption.
Qed.

(** Sorting a series whose dates are distinct month keys puts it in
    strictly ascending order. *)
Lemma sort_ascending (l : list MonthlyData) :
  Forall keyed l -> NoDup (List.map date l) ->
  strictlyAscending (Sorting.sort (sortFn localeCompare) l).
Proof.
  induction l as [|x l IH]; intros Hl Hnd; simpl.
  - constructor.
  - inversion Hl; subst. inversion Hnd; subst.
    apply insert_ascending; auto.
    + eapply Permutation_Forall; [symmetry; apply sort_perm | assumption].
    + intros Hin. apply H3.
      eapply Permutation_in; [|exact Hin].
      apply Permutation_map, sort_perm.
Qed.

End Series.

End SortingFacts.

(** ** The accumulated maps *)

Module AggregationFacts.

Lemma In_keys_set {V} (o : Obj.t V) k v k' :
  In k' (Obj.keys (Obj.set o k v)) <-> k' = k \/ In k' (Obj.keys o).
Proof.
  unfold Obj.keys. induction o as [|[k0 v0] o IH]; simpl.
  - intuition.
  - destruct (String.eqb_spec k0 k) as [->|Hne]; simpl; [intuition|].
    rewrite IH. intuition.
Qed.

Lemma NoDup_keys_set {V} (o : Obj.t V) k v :
  NoDup (Obj.keys o) -> NoDup (Obj.keys (Obj.set o k v)).
Proof.
  induction o as [|[k0 v0] o IH]; simpl; intros Hnd.
  - repeat constructor. intros [].
  - inversion Hnd as [|? ? Hnin Hnd']; subst.
    destruct (String.eqb_spec k0 k) as [->|Hne]; simpl.
    + constructor; assumption.
    + constructor; [|auto]. intros Hin.
      apply (In_keys_set o k v k0) in Hin. destruct Hin; [congruence|auto].
Qed.

Lemma In_set {V} (o : Obj.t V) k v k' v' :
  In (k', v') (Obj.set o k v) -> (k' = k /\ v' = v) \/ In (k', v') o.
Proof.
  induction o as [|[k0 v0] o IH]; simpl.
  - intros [[= <- <-]|[]]. auto.
  - destruct (String.eqb_spec k0 k) as [->|Hne]; simpl.
    + intros [[= <- <-]|H]; auto.
    + intros [H|H]; auto. destruct (IH H); auto.
Qed.

Lemma monthKeyed_set o k v :
  keyText k = true -> monthKeyed o -> monthKeyed (Obj.set o k v).
Proof.
  intros Hk [Hnd Hall]. split; [now apply NoDup_keys_set|].
  apply Forall_forall. intros k' Hin. apply In_keys_set in Hin.
  destruct Hin as [->|Hin]; [exact Hk|].
  rewrite Forall_forall in Hall. auto.
Qed.

Lemma monthKeyed_accumulate o k a :
  keyText k = true -> monthKeyed o -> monthKeyed (accumulate o k a).
Proof.
  intros Hk Ho. unfold accumulate. apply monthKeyed_set; [exact Hk|].
  destruct (Obj.get o k) as [v|]; [destruct (falsy v)|]; auto;
    now apply monthKeyed_set.
Qed.

Lemma monthKeyed_nil : monthKeyed [].
Proof. split; constructor. Qed.

Lemma wellKeyed_aggregate acc r :
  keyText (dateKey r) = true -> wellKeyed acc -> wellKeyed (aggregate acc r).
Proof.
  intros Hk [Ht Hc]. split; simpl.
  - now apply monthKeyed_accumulate.
  - intros cls o.
    set (cm := match Obj.get (classMap acc) (className r) with
               | Some _ => classMap acc
               | None => Obj.set (classMap acc) (className r) []
               end).
    assert (Hcm : forall c o', Obj.get cm c = Some o' -> monthKeyed o').
    { intros c o'. subst cm.
      destruct (Obj.get (classMap acc) (className r)) eqn:E; [apply Hc|].
      destruct (String.eqb_spec (className r) c) as [<-|Hne].
      - rewrite ObjFacts.get_set_same. intros [= <-]. apply monthKeyed_nil.
      - rewrite ObjFacts.get_set_other by exact Hne. apply Hc. }
    destruct (String.eqb_spec (className r) cls) as [<-|Hne].
    + rewrite ObjFacts.get_set_same. intros [= <-].
      apply monthKeyed_accumulate; [exact Hk|].
      destruct (Obj.get cm (className r)) eqn:E;
        [eapply Hcm; eassumption | apply monthKeyed_nil].
    + rewrite ObjFacts.get_set_other by exact Hne. apply Hcm.
Qed.

Lemma wellKeyed_fold (rows : list Row) : forall acc,
  Forall (fun r => keyText (dateKey r) = true) rows ->
  wellKeyed acc -> wellKeyed (fold_left aggregate rows acc).
Proof.
  induction rows as [|r rows IH]; intros acc Hall Hacc; simpl; [exact Hacc|].
  inversion Hall; subst. apply IH; [assumption|].
  now apply wellKeyed_aggregate.
Qed.

Lemma wellKeyed_empty : wellKeyed emptyAcc.
Proof.
  split; [apply monthKeyed_nil|]. intros cls o. discriminate.
Qed.

(** The rows read from data lines carry month keys. *)
Lemma validRows_keyed newDate c (ls : list string) :
  Forall (fun r => keyText (dateKey r) = true) (validRows newDate c ls).
Proof.
  apply Forall_forall. intros r Hin. unfold validRows in Hin.
  apply in_flat_map in Hin. destruct Hin as (l & _ & Hr).
  destruct (readRow newDate c l) as [r'|] eqn:E; [|contradiction].
  destruct Hr as [<-|[]].
  destruct (readRow_inv _ _ _ _ E) as (d & a & _ & _ & Hk & _).
  rewrite Hk. apply KeyFacts.keyText_dateKeyOf.
Qed.

(** What [forEach] leaves in [byClass]: a series of the class map, or of
    nothing. *)
Lemma byClass_entries (f : string -> list MonthlyData) (l : list string) :
  forall init cls s,
    In (cls, s) (fold_left (fun b c => Obj.set b c (f c)) l init) ->
    In (cls, s) init \/ s = f cls.
Proof.
  induction l as [|c l IH]; intros init cls s Hin; simpl in Hin; [auto|].
  apply IH in Hin. destruct Hin as [Hin|Hin]; [|auto].
  apply In_set in Hin. destruct Hin as [[-> ->]|Hin]; auto.
Qed.

End AggregationFacts.

(** ** Order of the series *)

Section SeriesOrder.

Variable newDate : string -> option (Z * Z).
Variable localeCompare : string -> string -> Z.

(** The host orders month keys as their code units do. *)
Hypothesis localeCompare_keys : forall a b,
  keyText a = true -> keyText b = true ->
  Z.compare (localeCompare a b) 0 = String.compare a b.

Lemma series_ascending (o : Obj.t number) :
  monthKeyed o -> strictlyAscending (series localeCompare o).
Proof.
  intros [Hnd Hall]. unfold series.
  apply SortingFacts.sort_ascending; [exact localeCompare_keys | |].
  - apply Forall_forall. intros p Hp. apply in_map_iff in Hp.
    destruct Hp as ([k v] & <- & Hin). unfold keyed. simpl.
    rewrite Forall_forall in Hall. apply Hall.
    unfold Obj.keys. apply in_map_iff. exists (k, v). auto.
  - rewrite map_map. exact Hnd.
Qed.

Lemma ascending_NoDup (s : list MonthlyData) :
  strictlyAscending s -> NoDup (List.map date s).
Proof.
  induction 1 as [|p s Hs IH Hall]; simpl; constructor; [|exact IH].
  intros Hin. apply in_map_iff in Hin. destruct Hin as (q & Hq & Hin).
  rewrite Forall_forall in Hall. specialize (Hall q Hin).
  unfold dateBefore in Hall. rewrite Hq in Hall.
  assert (E : String.compare (date p) (date p) = Eq)
    by now apply OrderedTypeEx.String_as_OT.cmp_eq.
  congruence.
Qed.

(** C2. In every data set the parse resolves with, the total series and
    the series of each class are in strictly ascending order of their
    dates, compared by code units, so that no date occurs twice; the host's
    [localeCompare] is taken to order month keys as their code units do. *)
Theorem C2_series_strictly_ascending text ds :
  parseCSV newDate localeCompare text = Resolved ds ->
  (strictlyAscending (totalByDate ds)
   /\ NoDup (List.map date (totalByDate ds)))
  /\ (forall cls s,
        In (cls, s) (byClass ds) ->
        strictlyAscending s /\ NoDup (List.map date s)).
Proof.
  intros Hds. rewrite parseCSV_cases in Hds.
  destruct (isEmpty _); [discriminate|].
  destruct (_ <? _)%nat; [discriminate|].
  destruct (_ || _); [discriminate|].
  pose proof (AggregationFacts.validRows_keyed newDate (columnsOf text)
                (tl (splitLines text))) as Hkeys.
  fold (dataRows newDate text) in Hkeys.
  destruct (dataRows newDate text) as [|r rows]; [discriminate|].
  injection Hds as <-.
  destruct (AggregationFacts.wellKeyed_fold (r :: rows) emptyAcc Hkeys
              AggregationFacts.wellKeyed_empty) as [Ht Hc].
  assert (Hasc : forall s, strictlyAscending s ->
                   strictlyAscending s /\ NoDup (List.map date s))
    by (intros s Hs; split; [exact Hs | now apply ascending_NoDup]).
  split.
  - apply Hasc. unfold assemble. simpl totalByDate. now apply series_ascending.
  - intros cls s Hin. apply Hasc. unfold assemble in Hin. simpl byClass in Hin.
    apply AggregationFacts.byClass_entries in Hin.
    destruct Hin as [[]| ->].
    apply series_ascending.
    destruct (Obj.get _ cls) eqn:E;
      [eapply Hc; exact E | apply AggregationFacts.monthKeyed_nil].
Qed.

End SeriesOrder.

(** Comparison by code units is one such host comparison. *)
Lemma codeUnitCompare_keys a b :
  keyText a = true -> keyText b = true ->
  Z.compare (Sorting.codeUnitCompare a b) 0 = String.compare a b.
Proof.
  intros _ _. unfold Sorting.codeUnitCompare.
  destruct (String.compare a b); reflexivity.
Qed.

Lemma C2_series_strictly_ascending_witness :
  strictlyAscending
    [mkMonthlyData "2023-08" (ofZ 7); mkMonthlyData "2023-09" (ofZ 8)].
Proof.
  refine (proj1 (proj1 (C2_series_strictly_ascending (fun _ => None)
            Sorting.codeUnitCompare codeUnitCompare_keys
            (fileOf ["billPeriod,amount,accountClass"; "202309,5,A";
                     "20230815,7,B"; "2023-09-01,3,A"])
            (mkParsedDataSet
               [mkMonthlyData "2023-08" (ofZ 7); mkMonthlyData "2023-09" (ofZ 8)]
               [("A", [mkMonthlyData "2023-09" (ofZ 8)]);
                ("B", [mkMonthlyData "2023-08" (ofZ 7)])]
               ["A"; "B"])
            _))).
  vm_compute. reflexivity.
Defined.

(** ** Exact additions *)

Module NumberFacts.

Lemma iter_pos_iter {A} (f : A -> A) (n : positive) : forall x,
  SpecFloat.iter_pos f n x = Pos.iter f x n.
Proof.
  induction n as [n IH|n IH|]; intros x; simpl; rewrite ?IH; try reflexivity.
  now rewrite !Pos.iter_swap.
Qed.

Lemma shl_0 c : shl c 0 = c.
Proof. reflexivity. Qed.

Lemma shl_pos c n : shl c (Zpos n) = Pos.iter xO c n.
Proof. reflexivity. Qed.

Lemma shl_shl c a b : 0 <= a -> 0 <= b -> shl (shl c a) b = shl c (a + b).
Proof.
  intros Ha Hb. destruct a as [|a|a]; [now rewrite shl_0 | | lia].
  destruct b as [|b|b]; [now rewrite Z.add_0_r | | lia].
  change (Zpos a + Zpos b) with (Zpos (a + b)). rewrite !shl_pos.
  rewrite (Pos.add_comm a b). symmetry. apply Pos.iter_add.
Qed.

Lemma digits_shl c n :
  0 <= n -> Zpos (digits2_pos (shl c n)) = Zpos (digits2_pos c) + n.
Proof.
  intros Hn. destruct n as [|n|n]; [rewrite shl_0; lia | | lia].
  rewrite shl_pos. clear Hn. induction n as [|n IH] using Pos.peano_ind.
  - simpl. lia.
  - rewrite Pos.iter_succ. simpl digits2_pos. lia.
Qed.

Lemma Zpos_shl c n : 0 <= n -> Zpos (shl c n) = Zpos c * 2 ^ n.
Proof.
  intros Hn. destruct n as [|n|n]; [rewrite shl_0; lia | | lia].
  rewrite shl_pos. clear Hn. induction n as [|n IH] using Pos.peano_ind.
  - simpl. lia.
  - rewrite Pos.iter_succ, Pos2Z.inj_succ, Z.pow_succ_r by lia.
    rewrite Pos2Z.inj_xO, IH. ring.
Qed.

Lemma shr_shl c n :
  Pos.iter shr_1 (Build_shr_record (Zpos (Pos.iter xO c n)) false false) n
  = Build_shr_record (Zpos c) false false.
Proof.
  induction n as [|n IH] using Pos.peano_ind.
  - reflexivity.
  - rewrite Pos.iter_succ. rewrite <- Pos.iter_swap. simpl shr_1. rewrite Pos.iter_succ.
    exact IH.
Qed.

Lemma fexp_small d : -1021 <= d -> fexp prec emax d = d - prec.
Proof. intros H. unfold fexp, emin, prec, emax. lia. Qed.

(** Rounding a mantissa of 53 digits shifted left by [n] places drops
    the [n] zeros and nothing else. *)
Lemma round_aux_shift s M n e :
  Zpos (digits2_pos M) = prec -> 0 <= n -> -1074 <= e + n <= 971 ->
  binary_round_aux prec emax s (Zpos (shl M n)) e loc_Exact
  = S754_finite s M (e + n).
Proof.
  intros HM Hn He. unfold binary_round_aux, shr_fexp. simpl Zdigits2.
  rewrite digits_shl, HM by exact Hn.
  assert (H1 : -1021 <= prec + n + e) by (unfold prec; lia).
  rewrite (fexp_small _ H1).
  replace (prec + n + e - prec - e) with n by ring.
  assert (Hshr : shr (shr_record_of_loc (Zpos (shl M n)) loc_Exact) e n
                 = (Build_shr_record (Zpos M) false false, e + n)).
  { destruct n as [|n|n]; [now rewrite shl_0, Z.add_0_r | | lia].
    unfold shr. rewrite iter_pos_iter, shl_pos. simpl shr_record_of_loc.
    now rewrite shr_shl. }
  rewrite Hshr.
  cbn [shr_m loc_of_shr_record round_nearest_even shr_r shr_s Zdigits2].
  rewrite HM.
  assert (H2 : -1021 <= prec + (e + n)) by (unfold prec; lia).
  rewrite (fexp_small _ H2).
  replace (prec + (e + n) - prec - (e + n)) with 0 by ring.
  cbn [shr shr_record_of_loc shr_m].
  destruct (Z.leb_spec (e + n) (emax - prec)); [reflexivity|].
  unfold emax, prec in *. lia.
Qed.

Lemma digits_normal c :
  Zpos (digits2_pos c) <= prec ->
  Zpos (digits2_pos (shl c (prec - Zpos (digits2_pos c)))) = prec.
Proof. intros H. rewrite digits_shl; lia. Qed.

(** Rounding [c * 2^k] at exponent [-k], for [c] of at most 53 digits,
    gives the normal form of [c] exactly. *)
Lemma binary_round_exact s c k m :
  Zpos (digits2_pos c) <= prec -> 0 <= k -> m = shl c k ->
  binary_round prec emax s m (- k) = normal s c.
Proof.
  intros Hc Hk ->. unfold binary_round, normal.
  set (d := Zpos (digits2_pos c)) in *.
  assert (Hd : 1 <= d) by (unfold d; lia).
  rewrite digits_shl by exact Hk. fold d.
  replace (d + k + - k) with d by ring.
  rewrite fexp_small by lia. unfold shl_align.
  destruct (d - prec - - k) as [|p|p] eqn:Ep.
  - replace (shl c k) with (shl (shl c (prec - d)) 0).
    + rewrite round_aux_shift; [f_equal; lia | now apply digits_normal | lia |].
      unfold prec in *. lia.
    + rewrite shl_0. f_equal. lia.
  - replace (shl c k) with (shl (shl c (prec - d)) (Zpos p)).
    + rewrite round_aux_shift; [f_equal; lia | now apply digits_normal | lia |].
      unfold prec in *. lia.
    + rewrite shl_shl by lia. f_equal. lia.
  - replace (Pos.iter xO (shl c k) p) with (shl (shl c (prec - d)) 0).
    + rewrite round_aux_shift; [f_equal; lia | now apply digits_normal | lia |].
      unfold prec in *. lia.
    + rewrite shl_0, <- shl_pos, shl_shl by lia. f_equal. lia.
Qed.

Lemma digits_bounds c :
  2 ^ (Zpos (digits2_pos c) - 1) <= Zpos c < 2 ^ Zpos (digits2_pos c).
Proof.
  induction c as [c IH|c IH|]; simpl digits2_pos;
    rewrite ?Pos2Z.inj_succ.
  - replace (Z.succ (Zpos (digits2_pos c)) - 1) with (Z.succ (Zpos (digits2_pos c) - 1)) by lia.
    rewrite !Z.pow_succ_r by lia. lia.
  - replace (Z.succ (Zpos (digits2_pos c)) - 1) with (Z.succ (Zpos (digits2_pos c) - 1)) by lia.
    rewrite !Z.pow_succ_r by lia. lia.
  - simpl. lia.
Qed.

Lemma digits_le c : Zpos c < 2 ^ prec -> Zpos (digits2_pos c) <= prec.
Proof.
  intros H. destruct (Z_le_gt_dec (Zpos (digits2_pos c)) prec) as [|Hgt]; [assumption|].
  pose proof (digits_bounds c) as [Hlo _].
  assert (2 ^ prec <= 2 ^ (Zpos (digits2_pos c) - 1))
    by (apply Z.pow_le_mono_r; unfold prec in *; lia).
  lia.
Qed.

Lemma ofZ_pos c : Zpos c < 2 ^ prec -> ofZ (Zpos c) = normal false c.
Proof.
  intros H. unfold ofZ, binary_normalize.
  apply (binary_round_exact false c 0 c); [now apply digits_le | lia | reflexivity].
Qed.

Lemma ofZ_neg c : Zpos c < 2 ^ prec -> ofZ (Zneg c) = normal true c.
Proof.
  intros H. unfold ofZ, binary_normalize.
  apply (binary_round_exact true c 0 c); [now apply digits_le | lia | reflexivity].
Qed.


Lemma normalize_exact z k :
  Z.abs z < 2 ^ prec -> 0 <= k ->
  binary_normalize prec emax (z * 2 ^ k) (- k) false = ofZ z.
Proof.
  intros Hz Hk. destruct z as [|c|c].
  - reflexivity.
  - rewrite ofZ_pos by exact Hz.
    rewrite <- Zpos_shl by exact Hk. simpl.
    apply binary_round_exact; [now apply digits_le | exact Hk | reflexivity].
  - rewrite ofZ_neg by exact Hz.
    replace (Zneg c * 2 ^ k) with (Zneg (shl c k))
      by (rewrite <- Pos2Z.opp_pos, Zpos_shl by exact Hk; lia).
    simpl.
    apply binary_round_exact; [now apply digits_le | exact Hk | reflexivity].
Qed.




End NumberFacts.
(** ** Sums of the accumulated maps *)

Module SumFacts.
Import NumberFacts.




Lemma totalMap_fold (rows : list Row) : forall acc,
  totalMap (fold_left aggregate rows acc) = accumulateAll (totalMap acc) rows.
Proof.
  induction rows as [|r rows IH]; intros acc; simpl; [reflexivity|].
  now rewrite IH.
Qed.

Lemma get_classMap_aggregate acc r c :
  Obj.get (classMap (aggregate acc r)) c
  = if String.eqb (className r) c
    then Some (accumulate (match Obj.get (classMap acc) c with
                           | Some o => o
                           | None => []
                           end) (dateKey r) (rowAmount r))
    else Obj.get (classMap acc) c.
Proof.
  unfold aggregate. simpl.
  destruct (String.eqb_spec (className r) c) as [<-|Hne].
  - rewrite ObjFacts.get_set_same. f_equal. f_equal.
    destruct (Obj.get (classMap acc) (className r)) as [o|] eqn:E;
      [now rewrite E | now rewrite ObjFacts.get_set_same].
  - rewrite ObjFacts.get_set_other by exact Hne.
    destruct (Obj.get (classMap acc) (className r));
      [reflexivity | now rewrite ObjFacts.get_set_other].
Qed.

(** The record of class [c] after the loop: the rows of the class,
    accumulated. *)
Lemma get_classMap_fold c (rows : list Row) : forall acc,
  Obj.get (classMap (fold_left aggregate rows acc)) c
  = match classRows c rows with
    | [] => Obj.get (classMap acc) c
    | rs => Some (accumulateAll
                    (match Obj.get (classMap acc) c with
                     | Some o => o
                     | None => []
                     end) rs)
    end.
Proof.
  induction rows as [|r rows IH]; intros acc; [reflexivity|].
  simpl fold_left. rewrite IH, get_classMap_aggregate. simpl classRows.
  destruct (String.eqb (className r) c);
    destruct (classRows c rows); reflexivity.
Qed.

Lemma setAdd_spec (s : list string) x c :
  In c (Obj.setAdd s x) <-> c = x \/ In c s.
Proof.
  induction s as [|y s IH]; simpl; [intuition|].
  destruct (String.eqb_spec y x) as [->|Hne]; simpl; [intuition|].
  rewrite IH. intuition.
Qed.

Lemma setAdd_NoDup (s : list string) x : NoDup s -> NoDup (Obj.setAdd s x).
Proof.
  induction s as [|y s IH]; simpl; intros Hnd.
  - repeat constructor. intros [].
  - inversion Hnd; subst.
    destruct (String.eqb_spec y x) as [->|Hne]; [assumption|].
    constructor; [|auto]. rewrite setAdd_spec. intuition congruence.
Qed.

(** The classes found by the loop: each class of a row, once. *)
Lemma foundClasses_fold (rows : list Row) : forall acc,
  NoDup (foundClasses acc) ->
  NoDup (foundClasses (fold_left aggregate rows acc))
  /\ forall c, In c (foundClasses (fold_left aggregate rows acc))
             <-> In c (foundClasses acc) \/ In c (List.map className rows).
Proof.
  induction rows as [|r rows IH]; intros acc Hnd; simpl.
  - intuition.
  - destruct (IH (aggregate acc r)) as [H1 H2];
      [simpl; now apply setAdd_NoDup|].
    split; [exact H1|]. intros c. rewrite H2. simpl.
    rewrite setAdd_spec. intuition.
Qed.

Lemma set_absent {V} (o : Obj.t V) k v :
  ~ In k (Obj.keys o) -> Obj.set o k v = (o ++ [(k, v)])%list.
Proof.
  induction o as [|[k0 v0] o IH]; simpl; intros Hnin; [reflexivity|].
  destruct (String.eqb_spec k0 k) as [->|Hne]; [tauto|].
  rewrite IH; tauto.
Qed.

(** [forEach] over distinct classes builds [byClass] entry by entry. *)
Lemma byClass_map {V} (f : string -> V) (l : list string) : forall init,
  NoDup l -> (forall c, In c l -> ~ In c (Obj.keys init)) ->
  fold_left (fun b c => Obj.set b c (f c)) l init
  = (init ++ List.map (fun c => (c, f c)) l)%list.
Proof.
  induction l as [|c l IH]; intros init Hnd Hfresh; simpl.
  - now rewrite app_nil_r.
  - inversion Hnd as [|? ? Hc Hnd']; subst.
    rewrite set_absent by (apply Hfresh; now left).
    rewrite IH; [now rewrite <- app_assoc | exact Hnd' |].
    intros c' Hc'. unfold Obj.keys. rewrite map_app, in_app_iff. simpl.
    intros [Hin|[<-|[]]]; [|tauto].
    apply (Hfresh c'); [now right | exact Hin].
Qed.















End SumFacts.

(** ** Aggregation consistency *)

Section Consistency.

Variable newDate : string -> option (Z * Z).
Variable localeCompare : string -> string -> Z.



End Consistency.



(** * Further properties of the code *)

(** ** Lines of a text *)

Module LineFacts.

Lemma splitLinesFrom_length (s : string) : forall cur,
  List.length (splitLinesFrom cur s) = S (JsText.countChar LF s).
Proof.
  induction s as [|c r IH]; intros cur; [reflexivity|].
  simpl splitLinesFrom. simpl JsText.countChar.
  destruct (Ascii.eqb c LF) eqn:Ec.
  - simpl. now rewrite IH.
  - destruct r as [|d r']; [reflexivity|].
    destruct (Ascii.eqb c CR && Ascii.eqb d LF) eqn:E.
    + apply andb_prop in E. destruct E as [_ Ed].
      specialize (IH EmptyString). simpl in IH. rewrite Ed in IH.
      simpl in IH. simpl. rewrite Ed. exact IH.
    + apply IH.
Qed.

Lemma every_snoc p (s : string) c :
  every p (s ++ String c EmptyString) = every p s && p c.
Proof.
  induction s as [|d s IH]; simpl; [now rewrite andb_true_r|].
  now rewrite IH, andb_assoc.
Qed.

Lemma splitLinesFrom_noLF (s : string) : forall cur,
  every (fun c => negb (Ascii.eqb c LF)) cur = true ->
  Forall (fun l => every (fun c => negb (Ascii.eqb c LF)) l = true)
         (splitLinesFrom cur s).
Proof.
  induction s as [|c r IH]; intros cur Hcur; [repeat constructor; exact Hcur|].
  simpl splitLinesFrom.
  destruct (Ascii.eqb c LF) eqn:Ec.
  - constructor; [exact Hcur | now apply IH].
  - assert (Hc : every (fun c => negb (Ascii.eqb c LF))
                   (cur ++ String c EmptyString) = true)
      by (rewrite every_snoc, Hcur, Ec; reflexivity).
    destruct r as [|d r']; [repeat constructor; exact Hc|].
    destruct (Ascii.eqb c CR && Ascii.eqb d LF) eqn:E.
    + constructor; [exact Hcur|].
      specialize (IH EmptyString eq_refl). simpl in IH.
      apply andb_prop in E. destruct E as [_ Ed]. rewrite Ed in IH.
      now inversion IH.
    + now apply IH.
Qed.

Lemma countChar_zero c (s : string) :
  JsText.countChar c s = O <-> every (fun d => negb (Ascii.eqb d c)) s = true.
Proof.
  induction s as [|d s IH]; simpl; [tauto|].
  destruct (Ascii.eqb d c); simpl; [split; discriminate | exact IH].
Qed.

End LineFacts.

Section Lines.

Variable newDate : string -> option (Z * Z).
Variable localeCompare : string -> string -> Z.

(** X1. A text splits into one line more than it has line feeds, and no
    line holds a line feed; so the parse rejects a text for lack of lines
    exactly when the text is not blank and holds no line feed. *)
Theorem X1_lines_and_line_feeds text :
  List.length (splitLines text) = S (JsText.countChar LF text)
  /\ Forall (fun l => every (fun c => negb (Ascii.eqb c LF)) l = true)
            (splitLines text)
  /\ (parseCSV newDate localeCompare text = Rejected NotEnoughLines
      <-> isEmpty (trim text) = false /\ JsText.countChar LF text = O).
Proof.
  split; [apply LineFacts.splitLinesFrom_length|].
  split; [now apply LineFacts.splitLinesFrom_noLF|].
  rewrite parseCSV_cases.
  pose proof (LineFacts.splitLinesFrom_length text EmptyString) as Hlen.
  fold (splitLines text) in Hlen.
  destruct (isEmpty (trim text)); [split; [discriminate | intros [? _]; discriminate]|].
  destruct (Nat.ltb_spec (List.length (splitLines text)) 2) as [Hlt|Hge].
  - split; [intros _; split; [reflexivity | lia] | reflexivity].
  - split; [|intros [_ H0]; lia].
    destruct (_ || _); [discriminate|].
    destruct (dataRows newDate text); discriminate.
Qed.

End Lines.

Lemma X1_lines_and_line_feeds_witness :
  parseCSV (fun _ => None) Sorting.codeUnitCompare "billPeriod,amount"
  = Rejected NotEnoughLines.
Proof.
  apply (proj2 (proj2 (X1_lines_and_line_feeds (fun _ => None)
                         Sorting.codeUnitCompare "billPeriod,amount"))).
  split; reflexivity.
Defined.

(** ** Headers *)

Module HeaderFacts.

Lemma toLowerChar_alnum c :
  isLower c || isDigit c = true -> toLowerChar c = c.
Proof.
  destruct c as [[] [] [] [] [] [] [] []]; vm_compute;
    intros H; try discriminate H; reflexivity.
Qed.

Lemma normalizeHeader_alnum (h : string) :
  every (fun c => isLower c || isDigit c) (normalizeHeader h) = true.
Proof. apply KeyFacts.every_filter. Qed.

Lemma normalizeHeader_fixed (h : string) :
  every (fun c => isLower c || isDigit c) h = true -> normalizeHeader h = h.
Proof.
  unfold normalizeHeader, toLowerCase.
  induction h as [|c h IH]; simpl; [reflexivity|].
  intros H. apply andb_prop in H. destruct H as [Hc Hh].
  rewrite (toLowerChar_alnum c Hc), Hc, IH by exact Hh. reflexivity.
Qed.

Lemma normalizeHeader_app (a b : string) :
  normalizeHeader (a ++ b) = normalizeHeader a ++ normalizeHeader b.
Proof.
  unfold normalizeHeader, toLowerCase.
  induction a as [|c a IH]; simpl; [reflexivity|].
  destruct (isLower (toLowerChar c) || isDigit (toLowerChar c)); simpl;
    now rewrite IH.
Qed.

Lemma indexOfFrom_absent x (a : list string) : forall i,
  ~ In x a -> indexOfFrom i x a = -1.
Proof.
  induction a as [|y a IH]; intros i Hnin; simpl; [reflexivity|].
  destruct (String.eqb_spec y x) as [->|_]; [exfalso; apply Hnin; now left|].
  apply IH. intros H. apply Hnin. now right.
Qed.

(** [indexOf] finds the first place of an element, counted from zero. *)
Lemma indexOfFrom_found x (a : list string) : forall i,
  In x a ->
  exists n, indexOfFrom i x a = i + Z.of_nat n
            /\ nth_error a n = Some x
            /\ forall k, (k < n)%nat -> nth_error a k <> Some x.
Proof.
  induction a as [|y a IH]; intros i Hin; [contradiction|]. simpl.
  destruct (String.eqb_spec y x) as [->|Hne].
  - exists O. split; [lia|]. split; [reflexivity|]. intros k Hk. lia.
  - destruct Hin as [E|Hin]; [contradiction|].
    destruct (IH (i + 1) Hin) as (n & Hi & Hn & Hfirst).
    exists (S n). split; [lia|]. split; [exact Hn|].
    intros [|k] Hk; simpl; [congruence|]. apply Hfirst. lia.
Qed.

Lemma indexOf_found x (a : list string) :
  In x a ->
  0 <= indexOf a x < Z.of_nat (List.length a)
  /\ at_ a (indexOf a x) = Some x
  /\ forall j, 0 <= j < indexOf a x -> at_ a j <> Some x.
Proof.
  intros Hin. unfold indexOf.
  destruct (indexOfFrom_found x a 0 Hin) as (n & Hi & Hn & Hfirst).
  rewrite Hi. simpl Z.add.
  assert (Hlen : (n < List.length a)%nat)
    by (apply nth_error_Some; congruence).
  split; [lia|]. unfold at_. split.
  - destruct (Z.ltb_spec (Z.of_nat n) 0); [lia|]. now rewrite Nat2Z.id.
  - intros j Hj. destruct (Z.ltb_spec j 0); [lia|]. apply Hfirst. lia.
Qed.

Lemma indexOf_absent x (a : list string) : ~ In x a -> indexOf a x = -1.
Proof. apply indexOfFrom_absent. Qed.

Lemma indexOf_minus1 x (a : list string) : indexOf a x = -1 <-> ~ In x a.
Proof.
  split; [|apply indexOf_absent].
  intros H Hin. destruct (indexOf_found x a Hin) as [Hr _]. lia.
Qed.

(** A normalized header is never ["account_class"]. *)
Lemma never_account_class headerLine :
  ~ In "account_class" (headersOf headerLine).
Proof.
  unfold headersOf. intros Hin. apply in_map_iff in Hin.
  destruct Hin as (h & Hh & _).
  pose proof (normalizeHeader_alnum h) as Ha. rewrite Hh in Ha.
  vm_compute in Ha. discriminate.
Qed.

End HeaderFacts.

(** X2. A normalized header holds lower-case letters and digits only, and
    normalizing is idempotent; a character that is neither a letter nor a
    digit once lowered (a space, an underscore, a hyphen) does not count,
    wherever it stands.  So the last fallback of the class column,
    ["account_class"], never matches a header. *)
Theorem X2_header_normalization :
  (forall h, every (fun c => isLower c || isDigit c) (normalizeHeader h) = true)
  /\ (forall h, normalizeHeader (normalizeHeader h) = normalizeHeader h)
  /\ (forall a c b,
        isLower (toLowerChar c) || isDigit (toLowerChar c) = false ->
        normalizeHeader (a ++ String c b) = normalizeHeader (a ++ b))
  /\ (forall headerLine,
        indexOf (headersOf headerLine) "account_class" = -1
        /\ classIndex (resolveColumns (headersOf headerLine))
           = if indexOf (headersOf headerLine) "accountclass" =? -1
             then indexOf (headersOf headerLine) "actcode"
             else indexOf (headersOf headerLine) "accountclass").
Proof.
  split; [exact HeaderFacts.normalizeHeader_alnum|].
  split; [intros h; apply HeaderFacts.normalizeHeader_fixed,
            HeaderFacts.normalizeHeader_alnum|].
  split.
  - intros a c b Hc. rewrite !HeaderFacts.normalizeHeader_app. f_equal.
    change (String c b) with (String c EmptyString ++ b).
    rewrite HeaderFacts.normalizeHeader_app.
    unfold normalizeHeader at 1. simpl. rewrite Hc. reflexivity.
  - intros headerLine.
    pose proof (HeaderFacts.indexOf_absent _ _
                  (HeaderFacts.never_account_class headerLine)) as H.
    split; [exact H|]. unfold resolveColumns. simpl. rewrite H.
    destruct (indexOf (headersOf headerLine) "accountclass" =? -1) eqn:E1;
      [|now rewrite E1].
    destruct (indexOf (headersOf headerLine) "actcode" =? -1) eqn:E2;
      [|reflexivity].
    apply Z.eqb_eq in E2. now rewrite E2.
Qed.

Lemma X2_header_normalization_witness :
  normalizeHeader "Bill_Period" = normalizeHeader "BillPeriod".
Proof.
  destruct X2_header_normalization as (_ & _ & H & _).
  apply (H "Bill" "_"%char "Period"). reflexivity.
Defined.

(** X3. Each column index that the header resolves lies inside the header
    row and is the first place of the name it stands for; for the date,
    [billperiod] wins over [monthly], and the index is [-1] exactly when
    neither name is a header. *)
Theorem X3_resolved_columns (headers : list string) :
  let c := resolveColumns headers in
  (dateIndex c = -1
   <-> ~ In "billperiod" headers /\ ~ In "monthly" headers)
  /\ (In "billperiod" headers ->
      0 <= dateIndex c < Z.of_nat (List.length headers)
      /\ at_ headers (dateIndex c) = Some "billperiod"
      /\ forall j, 0 <= j < dateIndex c -> at_ headers j <> Some "billperiod")
  /\ (~ In "billperiod" headers -> In "monthly" headers ->
      0 <= dateIndex c < Z.of_nat (List.length headers)
      /\ at_ headers (dateIndex c) = Some "monthly"
      /\ forall j, 0 <= j < dateIndex c -> at_ headers j <> Some "monthly")
  /\ (amountIndex c = -1 <-> ~ In "amount" headers)
  /\ (In "amount" headers ->
      0 <= amountIndex c < Z.of_nat (List.length headers)
      /\ at_ headers (amountIndex c) = Some "amount"
      /\ forall j, 0 <= j < amountIndex c -> at_ headers j <> Some "amount").
Proof.
  unfold resolveColumns. simpl.
  pose proof (HeaderFacts.indexOf_minus1 "billperiod" headers) as Hb.
  pose proof (HeaderFacts.indexOf_minus1 "monthly" headers) as Hm.
  pose proof (HeaderFacts.indexOf_minus1 "amount" headers) as Ha.
  split; [|split; [|split; [|split]]].
  - destruct (Z.eqb_spec (indexOf headers "billperiod") (-1)) as [E|E].
    + rewrite Hm. tauto.
    + split; [contradiction|]. intros [Hnb _]. apply Hb in Hnb. contradiction.
  - intros Hin.
    destruct (Z.eqb_spec (indexOf headers "billperiod") (-1)) as [E|E];
      [apply Hb in E; contradiction|].
    now apply HeaderFacts.indexOf_found.
  - intros Hnb Hin. apply Hb in Hnb. rewrite Hnb. simpl.
    now apply HeaderFacts.indexOf_found.
  - exact Ha.
  - apply HeaderFacts.indexOf_found.
Qed.

Lemma X3_resolved_columns_witness :
  at_ ["monthly"; "amount"; "billperiod"; "billperiod"]
      (dateIndex
         (resolveColumns ["monthly"; "amount"; "billperiod"; "billperiod"]))
  = Some "billperiod"
  /\ dateIndex
       (resolveColumns ["monthly"; "amount"; "billperiod"; "billperiod"])
     = 2.
Proof.
  destruct (X3_resolved_columns
              ["monthly"; "amount"; "billperiod"; "billperiod"])
    as (_ & H & _).
  split; [apply H; simpl; auto | reflexivity].
Defined.

(** ** The forecasting service *)

Module ForecastFacts.
Import Forecast JsText.



Lemma sliceLast_suffix {A} n (a : list A) :
  a = (firstn (List.length a - n) a ++ sliceLast n a)%list
  /\ List.length (sliceLast n a) = Nat.min n (List.length a).
Proof.
  unfold sliceLast. split; [now rewrite firstn_skipn|].
  rewrite length_skipn. lia.
Qed.

Lemma sliceLast_last {A} n (a : list A) d :
  (0 < n)%nat ->
  nth (List.length (sliceLast n a) - 1) (sliceLast n a) d
  = nth (List.length a - 1) a d.
Proof.
  intros Hn. destruct (sliceLast_suffix n a) as [_ Hlen]. rewrite Hlen.
  unfold sliceLast. rewrite nth_skipn.
  destruct a as [|x a]; [now destruct (_ + _)%nat|].
  f_equal. simpl List.length. lia.
Qed.

End ForecastFacts.

Section ForecastService.
Import Forecast.

Variable newClient : string -> option string.
Variable generateContent generateContent' : Request -> Reply.
Variable jsonParse jsonParse' : string -> ForecastResult + string.

(** X4. A history of fewer than six points never reaches the model: the
    call throws whatever the model and the JSON reader would do, and with
    a usable key and client the error is the lack of history, with the
    number of points when there are some. *)
Theorem X4_short_history_never_reaches_the_model apiKey history segmentName :
  (List.length history < 6)%nat ->
  getForecast newClient generateContent jsonParse apiKey history segmentName
  = getForecast newClient generateContent' jsonParse' apiKey history
      segmentName
  /\ (forall key,
        apiKey = Some key -> isEmpty (trim key) = false ->
        newClient key = None ->
        getForecast newClient generateContent jsonParse apiKey history
          segmentName
        = inr (match history with
               | [] => NoHistory
               | _ => NotEnoughHistory (List.length history)
               end)).
Proof.
  intros Hlen. unfold getForecast. split.
  - destruct apiKey as [key|]; [|reflexivity].
    destruct (isEmpty key || isEmpty (trim key)); [reflexivity|].
    destruct (newClient key); [reflexivity|].
    destruct (Nat.eqb_spec (List.length history) 0); [reflexivity|].
    destruct (Nat.ltb_spec (List.length history) 6); [reflexivity | lia].
  - intros key -> Hkey Hclient. rewrite Hkey, Hclient.
    assert (Hk : isEmpty key = false)
      by (destruct key; [discriminate Hkey | reflexivity]).
    rewrite Hk. simpl.
    destruct history as [|p h]; [reflexivity|].
    simpl List.length in *.
    destruct (Nat.ltb_spec (S (List.length h)) 6); [reflexivity | lia].
Qed.

(** X5. The history sent to the model is the last 36 points of the history
    (all of it when it is shorter), in order, and the date the forecast is
    asked to start after is the date of the last point of the history: the
    date where the chart draws the split.  *)
Theorem X5_request_window history segmentName :
  history <> [] ->
  let r := requestOf history segmentName in
  (exists older, history = (older ++ recentHistory r)%list)
  /\ List.length (recentHistory r) = Nat.min 36 (List.length history)
  /\ Some (lastDate r) = App.getLastHistoryDate history
  /\ segment r = segmentName.
Proof.
  intros Hne. cbv zeta.
  destruct (ForecastFacts.sliceLast_suffix 36 history) as [Happ Hlen].
  assert (Hpos : (0 < List.length history)%nat)
    by (destruct history; [contradiction | simpl; lia]).
  unfold requestOf. cbn [recentHistory lastDate segment].
  split; [eexists; exact Happ|]. split; [exact Hlen|]. split; [|reflexivity].
  unfold App.getLastHistoryDate.
  destruct (Nat.eqb_spec (List.length history) 0); [lia|].
  destruct (Nat.ltb_spec 0 (List.length (JsText.sliceLast 36 history)));
    [|lia].
  f_equal. f_equal. apply ForecastFacts.sliceLast_last. lia.
Qed.


End ForecastService.

Lemma X4_short_history_never_reaches_the_model_witness :
  Forecast.getForecast (fun _ => None) (fun _ => Forecast.Throws None)
    (fun _ => inr "no") (Some "key")
    [mkMonthlyData "2023-01" (ofZ 1); mkMonthlyData "2023-02" (ofZ 2)]
    "Total Portfolio"
  = inr (Forecast.NotEnoughHistory 2).
Proof.
  refine (proj2 (X4_short_history_never_reaches_the_model (fun _ => None)
           (fun _ => Forecast.Throws None) (fun _ => Forecast.Throws None)
           (fun _ => inr "no") (fun _ => inr "no") (Some "key")
           [mkMonthlyData "2023-01" (ofZ 1); mkMonthlyData "2023-02" (ofZ 2)]
           "Total Portfolio" _) "key" _ _ _).
  - simpl. lia.
  - reflexivity.
  - reflexivity.
  - reflexivity.
Defined.

Lemma X5_request_window_witness :
  List.length
    (Forecast.recentHistory
       (Forecast.requestOf (repeat (mkMonthlyData "2023-01" (ofZ 1)) 40)
          "Total Portfolio"))
  = 36%nat.
Proof.
  apply (X5_request_window (repeat (mkMonthlyData "2023-01" (ofZ 1)) 40)
           "Total Portfolio").
  discriminate.
Defined.


(** ** The application *)

Module AppFacts.
Import JsText.

Lemma setLastForecast_cons v p q (l : list App.ChartDataPoint) :
  App.setLastForecast v (p :: q :: l) = p :: App.setLastForecast v (q :: l).
Proof. reflexivity. Qed.

Lemma setLastForecast_dates v (l : list App.ChartDataPoint) :
  List.map App.date (App.setLastForecast v l) = List.map App.date l
  /\ List.map App.actual (App.setLastForecast v l) = List.map App.actual l.
Proof.
  induction l as [|p l IH]; [split; reflexivity|].
  destruct l as [|q l]; [split; reflexivity|].
  destruct IH as [IH1 IH2]. rewrite setLastForecast_cons, !map_cons.
  rewrite IH1, IH2. split; reflexivity.
Qed.

Lemma setLastForecast_forecasts v (l : list App.ChartDataPoint) :
  l <> [] ->
  List.map App.forecast (App.setLastForecast v l)
  = (removelast (List.map App.forecast l) ++ [Some v])%list.
Proof.
  induction l as [|p l IH]; intros Hne; [contradiction|].
  destruct l as [|q l]; [reflexivity|].
  rewrite setLastForecast_cons, map_cons, IH by discriminate. reflexivity.
Qed.

Lemma prefix_app (t b : string) : prefix t (t ++ b) = true.
Proof.
  induction t as [|c t IH]; simpl; [now destruct b|].
  destruct (Ascii.ascii_dec c c); [exact IH | contradiction].
Qed.

Lemma includes_prefix (t s : string) :
  prefix t s = true -> includes t s = true.
Proof. intros H. destruct s; simpl in *; now rewrite H. Qed.

Lemma includes_app (t a b : string) : includes t (a ++ t ++ b) = true.
Proof.
  induction a as [|c a IH].
  - change (includes t (t ++ b) = true). apply includes_prefix, prefix_app.
  - change (includes t (String c (a ++ t ++ b)) = true). simpl includes.
    rewrite IH. apply orb_true_r.
Qed.

Lemma toLowerCase_app (a b : string) :
  toLowerCase (a ++ b) = toLowerCase a ++ toLowerCase b.
Proof.
  unfold toLowerCase. induction a as [|c a IH]; simpl; [reflexivity|].
  now rewrite IH.
Qed.

Lemma removelast_map {A B} (f : A -> B) (l : list A) :
  removelast (List.map f l) = List.map f (removelast l).
Proof.
  induction l as [|x l IH]; [reflexivity|].
  destruct l as [|y l]; [reflexivity|].
  change (removelast (f x :: List.map f (y :: l))
          = f x :: List.map f (removelast (y :: l))).
  rewrite <- IH. reflexivity.
Qed.

Lemma nth_last {A} (l : list A) d :
  nth (List.length l - 1) l d = last l d.
Proof.
  induction l as [|x l IH]; [reflexivity|].
  destruct l as [|y l]; [reflexivity|].
  change (last (x :: y :: l) d) with (last (y :: l) d). rewrite <- IH.
  simpl. rewrite ?Nat.sub_0_r. reflexivity.
Qed.

End AppFacts.

(** X7. The chart of an empty history is empty, forecast or not.  Else the
    chart lists the history and then the forecast: the dates are theirs in
    order; the actual values are the amounts of the history and nothing for
    the forecast; the forecast values are nothing for the history, the
    amounts of the forecast for the forecast and, when there is a forecast,
    the last actual amount for the last point of the history, which joins
    the two lines. *)
Theorem X7_chart_data history :
  (forall forecastResult, App.chartData [] forecastResult = [])
  /\ (history <> [] ->
      List.map App.date (App.chartData history None) = List.map date history
      /\ List.map App.actual (App.chartData history None)
         = List.map (fun p => Some (amount p)) history
      /\ List.map App.forecast (App.chartData history None)
         = List.map (fun _ => None) history)
  /\ (history <> [] ->
      forall result,
        List.map App.date (App.chartData history (Some result))
        = (List.map date history
           ++ List.map date (Forecast.forecast result))%list
        /\ List.map App.actual (App.chartData history (Some result))
           = (List.map (fun p => Some (amount p)) history
              ++ List.map (fun _ => None) (Forecast.forecast result))%list
        /\ List.map App.forecast (App.chartData history (Some result))
           = (List.map (fun _ => None) (removelast history)
              ++ [Some (amount (last history (mkMonthlyData EmptyString zero)))]
              ++ List.map (fun p => Some (amount p))
                   (Forecast.forecast result))%list).
Proof.
  split; [reflexivity|].
  assert (Hmap : forall (l : list MonthlyData),
    List.map App.date
      (List.map (fun item => match item with
                             | mkMonthlyData d a =>
                                 App.mkChartDataPoint d (Some a) None
                             end) l) = List.map date l
    /\ List.map App.actual
      (List.map (fun item => match item with
                             | mkMonthlyData d a =>
                                 App.mkChartDataPoint d (Some a) None
                             end) l) = List.map (fun p => Some (amount p)) l
    /\ List.map App.forecast
      (List.map (fun item => match item with
                             | mkMonthlyData d a =>
                                 App.mkChartDataPoint d (Some a) None
                             end) l) = List.map (fun _ => None) l).
  { intros l. rewrite !map_map. repeat split; apply map_ext; now intros []. }
  assert (Hfc : forall (l : list MonthlyData),
    List.map App.date
      (List.map (fun item => match item with
                             | mkMonthlyData d a =>
                                 App.mkChartDataPoint d None (Some a)
                             end) l) = List.map date l
    /\ List.map App.actual
      (List.map (fun item => match item with
                             | mkMonthlyData d a =>
                                 App.mkChartDataPoint d None (Some a)
                             end) l) = List.map (fun _ => None) l
    /\ List.map App.forecast
      (List.map (fun item => match item with
                             | mkMonthlyData d a =>
                                 App.mkChartDataPoint d None (Some a)
                             end) l) = List.map (fun p => Some (amount p)) l).
  { intros l. rewrite !map_map. repeat split; apply map_ext; now intros []. }
  destruct (Hmap history) as (Hd & Ha & Hf).
  split.
  - intros Hne. unfold App.chartData.
    destruct history as [|p h]; [contradiction|]. simpl Nat.eqb. cbv iota.
    auto.
  - intros Hne result. unfold App.chartData.
    destruct (Hfc (Forecast.forecast result)) as (Hd' & Ha' & Hf').
    destruct history as [|p h] eqn:Eh; [contradiction|].
    rewrite <- Eh in *. 
    assert (Hlen : (List.length history =? 0)%nat = false)
      by (rewrite Eh; reflexivity).
    assert (Hpos : (0 <? List.length history)%nat = true)
      by (rewrite Eh; reflexivity).
    rewrite Hlen, Hpos. rewrite !map_app.
    destruct (AppFacts.setLastForecast_dates
                (amount (nth (List.length history - 1) history
                             (mkMonthlyData EmptyString zero)))
                (List.map (fun item => match item with
                             | mkMonthlyData d a =>
                                 App.mkChartDataPoint d (Some a) None
                             end) history)) as [Hsd Hsa].
    rewrite Hsd, Hsa, Hd, Ha, Hd', Ha', Hf'.
    repeat split.
    rewrite AppFacts.setLastForecast_forecasts
      by (rewrite Eh; discriminate).
    rewrite Hf, <- app_assoc. f_equal.
    + now rewrite AppFacts.removelast_map.
    + now rewrite AppFacts.nth_last.
Qed.

Lemma X7_chart_data_witness :
  List.map App.forecast
    (App.chartData
       [mkMonthlyData "2023-01" (ofZ 1); mkMonthlyData "2023-02" (ofZ 2)]
       (Some (Forecast.mkForecastResult [mkMonthlyData "2023-03" (ofZ 3)]
                "steady" "Stable")))
  = [None; Some (ofZ 2); Some (ofZ 3)].
Proof.
  destruct (X7_chart_data
              [mkMonthlyData "2023-01" (ofZ 1); mkMonthlyData "2023-02" (ofZ 2)])
    as (_ & _ & H).
  destruct (H ltac:(discriminate)
              (Forecast.mkForecastResult [mkMonthlyData "2023-03" (ofZ 3)]
                 "steady" "Stable")) as (_ & _ & Hf).
  exact Hf.
Defined.

(** X8. A trend text that holds "increas", "up" or "grow", in any letter
    case and anywhere, shows the rising icon, whatever else the text says;
    a text that holds "decreas", "down" or "drop" never shows the flat
    icon; no trend and the empty trend show the flat icon. *)
Theorem X8_trend_icon :
  (forall a w b,
      toLowerCase w = "increas" \/ toLowerCase w = "up"
      \/ toLowerCase w = "grow" ->
      App.renderTrendIcon (Some (a ++ w ++ b)) = App.TrendingUp)
  /\ (forall a w b,
        toLowerCase w = "decreas" \/ toLowerCase w = "down"
        \/ toLowerCase w = "drop" ->
        App.renderTrendIcon (Some (a ++ w ++ b)) <> App.Minus)
  /\ App.renderTrendIcon None = App.Minus
  /\ App.renderTrendIcon (Some EmptyString) = App.Minus.
Proof.
  split; [|split; [|split; reflexivity]].
  - intros a w b H. unfold App.renderTrendIcon.
    rewrite !AppFacts.toLowerCase_app.
    destruct H as [-> | [-> | ->]]; rewrite AppFacts.includes_app;
      rewrite ?orb_true_r; reflexivity.
  - intros a w b H. unfold App.renderTrendIcon.
    rewrite !AppFacts.toLowerCase_app.
    destruct (_ || _ || _); [discriminate|].
    destruct H as [-> | [-> | ->]]; rewrite AppFacts.includes_app;
      rewrite ?orb_true_r; discriminate.
Qed.

Lemma X8_trend_icon_witness :
  App.renderTrendIcon (Some "Sharp DOWNWARD trend, not SUPported by Q4")
  = App.TrendingUp.
Proof.
  apply (proj1 X8_trend_icon "Sharp DOWNWARD trend, not S" "UP"
           "ported by Q4").
  right. left. reflexivity.
Defined.

(** ** Fields of a line *)

Module FieldFacts.

Lemma trimStart_length (s : string) :
  (String.length (trimStart s) <= String.length s)%nat.
Proof.
  induction s as [|c s IH]; simpl; [lia|].
  destruct (isWhiteSpace c); simpl; lia.
Qed.

(** A string that [trimStart] leaves alone is empty or starts with a
    character that is no white space. *)
Lemma trimStart_fixed (c : ascii) (r : string) :
  trimStart (String c r) = String c r -> isWhiteSpace c = false.
Proof.
  simpl. destruct (isWhiteSpace c); [|reflexivity].
  intros H. pose proof (trimStart_length r) as Hl. rewrite H in Hl.
  simpl in Hl. lia.
Qed.

Lemma trimStart_idem (s : string) : trimStart (trimStart s) = trimStart s.
Proof.
  induction s as [|c s IH]; simpl; [reflexivity|].
  destruct (isWhiteSpace c) eqn:E; [exact IH|]. simpl. now rewrite E.
Qed.

Lemma trimEnd_cons (c : ascii) (r : string) :
  trimEnd (String c r) = String c r ->
  trimEnd r = r /\ (isWhiteSpace c = false \/ r <> EmptyString).
Proof.
  simpl. destruct (isWhiteSpace c && isEmpty (trimEnd r)) eqn:E;
    [discriminate|].
  intros [= Hr]. split; [exact Hr|].
  rewrite Hr in E. destruct (isWhiteSpace c); [|now left].
  right. destruct r; [discriminate E | discriminate].
Qed.

Lemma trimEnd_idem (s : string) : trimEnd (trimEnd s) = trimEnd s.
Proof.
  induction s as [|c s IH]; simpl; [reflexivity|].
  destruct (isWhiteSpace c && isEmpty (trimEnd s)) eqn:E; [reflexivity|].
  simpl. now rewrite IH, E.
Qed.

Lemma trimStart_trimEnd (s : string) :
  trimStart s = s -> trimStart (trimEnd s) = trimEnd s.
Proof.
  destruct s as [|c r]; [reflexivity|]. intros H.
  apply trimStart_fixed in H. simpl. rewrite H. simpl. now rewrite H.
Qed.

(** [trim] gives a string with no white space at either end. *)
Lemma trim_trimmed (s : string) :
  trimStart (trim s) = trim s /\ trimEnd (trim s) = trim s.
Proof.
  unfold trim. split; [|apply trimEnd_idem].
  apply trimStart_trimEnd, trimStart_idem.
Qed.

Lemma trimmed_trim (s : string) :
  trimStart s = s -> trimEnd s = s -> trim s = s.
Proof. intros H1 H2. unfold trim. now rewrite H1. Qed.

Lemma every_trimStart p (s : string) :
  every p s = true -> every p (trimStart s) = true.
Proof.
  induction s as [|c s IH]; simpl; [reflexivity|].
  intros H. destruct (isWhiteSpace c); [|exact H].
  apply andb_prop in H. now apply IH.
Qed.

Lemma every_trimEnd p (s : string) :
  every p s = true -> every p (trimEnd s) = true.
Proof.
  induction s as [|c s IH]; simpl; [reflexivity|].
  intros H. apply andb_prop in H. destruct H as [Hc Hs].
  destruct (isWhiteSpace c && isEmpty (trimEnd s)); [reflexivity|].
  simpl. now rewrite Hc, IH.
Qed.

Lemma every_trim p (s : string) : every p s = true -> every p (trim s) = true.
Proof. intros H. now apply every_trimEnd, every_trimStart. Qed.

Lemma filter_every (p q : ascii -> bool) (s : string) :
  every p s = true -> (forall c, p c = true -> q c = true) -> filter q s = s.
Proof.
  intros Hs Hpq. induction s as [|c s IH]; simpl in *; [reflexivity|].
  apply andb_prop in Hs. destruct Hs as [Hc Hs].
  now rewrite (Hpq c Hc), IH.
Qed.

Lemma filter_ext_on (p q q' : ascii -> bool) (s : string) :
  every p s = true -> (forall c, p c = true -> q c = q' c) ->
  filter q s = filter q' s.
Proof.
  intros Hs Hq. induction s as [|c s IH]; simpl in *; [reflexivity|].
  apply andb_prop in Hs. destruct Hs as [Hc Hs].
  now rewrite (Hq c Hc), IH.
Qed.

Section KeepsText.

(** A filter that keeps every character that is no white space. *)
Variable q : ascii -> bool.
Hypothesis q_keeps : forall c, isWhiteSpace c = false -> q c = true.

Lemma filter_nonempty (s : string) :
  trimEnd s = s -> s <> EmptyString -> filter q s <> EmptyString.
Proof.
  induction s as [|c r IH]; intros Ht Hne; [contradiction|].
  apply trimEnd_cons in Ht. destruct Ht as [Hr Hc]. simpl.
  destruct (q c) eqn:Eq; [discriminate|].
  destruct Hc as [Hc|Hc]; [rewrite (q_keeps c Hc) in Eq; discriminate|].
  now apply IH.
Qed.

Lemma filter_trimEnd (s : string) :
  trimEnd s = s -> trimEnd (filter q s) = filter q s.
Proof.
  induction s as [|c r IH]; intros Ht; [reflexivity|].
  pose proof (trimEnd_cons c r Ht) as [Hr Hc]. simpl.
  destruct (q c) eqn:Eq; [|now apply IH].
  simpl. rewrite (IH Hr).
  destruct (isWhiteSpace c) eqn:Ew; [|reflexivity].
  destruct Hc as [Hc|Hc]; [discriminate|].
  pose proof (filter_nonempty r Hr Hc) as Hf.
  destruct (filter q r); [contradiction | reflexivity].
Qed.

Lemma filter_trimStart (s : string) :
  trimStart s = s -> trimStart (filter q s) = filter q s.
Proof.
  destruct s as [|c r]; [reflexivity|]. intros H.
  apply trimStart_fixed in H. simpl. rewrite (q_keeps c H). simpl.
  now rewrite H.
Qed.

End KeepsText.

(** The loop never puts a quote character in a field. *)
Lemma scan_no_quote (line : string) : forall st,
  Forall (fun f => every (fun c => negb (Ascii.eqb c quote)) f = true)
         (result st) ->
  every (fun c => negb (Ascii.eqb c quote)) (current st) = true ->
  Forall (fun f => every (fun c => negb (Ascii.eqb c quote)) f = true)
         (result (scan line st))
  /\ every (fun c => negb (Ascii.eqb c quote)) (current (scan line st)) = true.
Proof.
  induction line as [|c r IH]; intros st Hres Hcur; [auto|].
  simpl scan. apply IH; unfold step;
    destruct (Ascii.eqb c quote) eqn:Eq; simpl; auto;
    destruct (Ascii.eqb c comma && negb (inQuotes st)); simpl; auto.
  - apply Forall_app. auto.
  - rewrite LineFacts.every_snoc, Hcur, Eq. reflexivity.
Qed.

Lemma rawFields_no_quote (line : string) :
  Forall (fun f => every (fun c => negb (Ascii.eqb c quote)) f = true)
         (rawFields line).
Proof.
  unfold rawFields.
  destruct (scan_no_quote line start) as [H1 H2];
    [constructor | reflexivity |].
  apply Forall_app. auto.
Qed.

(** The clean-up of a field without quotes: trim it and drop the carriage
    returns. *)
Lemma cleanField_no_quote (v : string) :
  every (fun c => negb (Ascii.eqb c quote)) v = true ->
  cleanField v = filter (fun c => negb (Ascii.eqb c CR)) (trim v).
Proof.
  intros Hv. unfold cleanField.
  pose proof (every_trim _ v Hv) as Ht.
  assert (Hs : startsWithChar quote (trim v) = false).
  { destruct (trim v) as [|c r]; [reflexivity|]. simpl in *.
    apply andb_prop in Ht. destruct Ht as [Hc _].
    now apply negb_true_iff in Hc. }
  rewrite Hs. simpl andb. cbv iota.
  apply (filter_ext_on _ _ _ _ Ht).
  intros c Hc. apply negb_true_iff in Hc. now rewrite Hc.
Qed.

End FieldFacts.

(** X9. A line always yields at least one field, and every field it yields
    holds no quote character and no carriage return and has no white space
    at either end: quotes are never field text, not even doubled inside a
    quoted field. *)
Theorem X9_fields_are_clean line :
  parseCSVLine line <> []
  /\ forall f, In f (parseCSVLine line) ->
       every (fun c => negb (Ascii.eqb c quote || Ascii.eqb c CR)) f = true
       /\ trim f = f.
Proof.
  split.
  - unfold parseCSVLine, rawFields.
    destruct (result (scan line start)); discriminate.
  - intros f Hin. unfold parseCSVLine in Hin. apply in_map_iff in Hin.
    destruct Hin as (v & <- & Hv).
    pose proof (FieldFacts.rawFields_no_quote line) as Hq.
    rewrite Forall_forall in Hq. specialize (Hq v Hv).
    split; [apply KeyFacts.every_filter|].
    rewrite (FieldFacts.cleanField_no_quote v Hq).
    destruct (FieldFacts.trim_trimmed v) as [H1 H2].
    assert (Hkeep : forall c, isWhiteSpace c = false ->
                              negb (Ascii.eqb c CR) = true).
    { intros c Hc. destruct (Ascii.eqb_spec c CR) as [->|]; [|reflexivity].
      discriminate Hc. }
    apply FieldFacts.trimmed_trim.
    + now apply FieldFacts.filter_trimStart.
    + now apply FieldFacts.filter_trimEnd.
Qed.

Lemma X9_fields_are_clean_witness :
  trim "Revenue, Net" = "Revenue, Net".
Proof.
  apply (proj2 (X9_fields_are_clean
                  ("202309, " ++ quoted "Revenue, Net" ++ " ,1500"))
           "Revenue, Net").
  vm_compute. auto.
Defined.

Module RoundTripFacts.

Lemma scan_app (a b : string) : forall st,
  scan (a ++ b) st = scan b (scan a st).
Proof. induction a as [|c a IH]; intros st; simpl; auto. Qed.

(** Inside quotes every character but the quote is field text. *)
Lemma scan_inside (f : string) : forall r cur,
  every (fun c => negb (Ascii.eqb c quote)) f = true ->
  scan f (mkScan r cur true) = mkScan r (cur ++ f) true.
Proof.
  induction f as [|c f IH]; intros r cur Hf; simpl.
  - now rewrite StringFacts.append_empty_r.
  - apply andb_prop in Hf. destruct Hf as [Hc Hf].
    apply negb_true_iff in Hc. unfold step. rewrite Hc. simpl.
    rewrite andb_false_r. rewrite (IH _ _ Hf). f_equal.
    rewrite <- StringFacts.append_assoc. reflexivity.
Qed.

Lemma scan_quoted (f : string) r cur :
  every (fun c => negb (Ascii.eqb c quote)) f = true ->
  scan (quoted f) (mkScan r cur false) = mkScan r (cur ++ f) false.
Proof.
  intros Hf. unfold quoted.
  change (scan (String quote (f ++ String quote EmptyString))
               (mkScan r cur false))
    with (scan (f ++ String quote EmptyString) (mkScan r cur true)).
  rewrite scan_app, (scan_inside f _ _ Hf). reflexivity.
Qed.

Lemma scan_quoted_fields (fs : list string) : forall f r cur,
  Forall (fun f => every (fun c => negb (Ascii.eqb c quote)) f = true)
         (f :: fs) ->
  let st := scan (concat "," (List.map quoted (f :: fs))) (mkScan r cur false)
  in (result st ++ [current st])%list = (r ++ [(cur ++ f)%string] ++ fs)%list.
Proof.
  induction fs as [|g fs IH]; intros f r cur Hall; inversion Hall; subst.
  - cbv zeta. change (concat "," (List.map quoted [f])) with (quoted f).
    rewrite scan_quoted by assumption. reflexivity.
  - cbv zeta.
    change (concat "," (List.map quoted (f :: g :: fs)))
      with (quoted f ++ ("," ++ concat "," (List.map quoted (g :: fs)))).
    rewrite scan_app, scan_quoted by assumption.
    change (scan ("," ++ concat "," (List.map quoted (g :: fs)))
                 (mkScan r (cur ++ f) false))
      with (scan (concat "," (List.map quoted (g :: fs)))
                 (mkScan (r ++ [(cur ++ f)%string])%list EmptyString false)).
    specialize (IH g (r ++ [(cur ++ f)%string])%list EmptyString H2). cbv zeta in IH.
    rewrite IH. simpl. now rewrite <- app_assoc.
Qed.

End RoundTripFacts.

(** X10. Writing fields between quotes and joining them with commas is
    undone by the tokenizer: for fields that hold no quote and no carriage
    return and have no white space at either end, commas inside them or
    not, the line tokenizes to the fields. *)
Theorem X10_quoted_round_trip (fields : list string) :
  fields <> [] ->
  (forall f, In f fields ->
     every (fun c => negb (Ascii.eqb c quote || Ascii.eqb c CR)) f = true
     /\ trim f = f) ->
  parseCSVLine (concat "," (List.map quoted fields)) = fields.
Proof.
  intros Hne Hclean. destruct fields as [|f fs]; [contradiction|].
  assert (Hq : Forall (fun f => every (fun c => negb (Ascii.eqb c quote)) f
                                = true) (f :: fs)).
  { apply Forall_forall. intros g Hg. destruct (Hclean g Hg) as [He _].
    revert He. apply KeyFacts.every_weaken. intros c Hc.
    apply negb_true_iff, orb_false_elim in Hc. destruct Hc as [Hc _].
    now rewrite Hc. }
  unfold parseCSVLine, rawFields.
  pose proof (RoundTripFacts.scan_quoted_fields fs f [] EmptyString Hq) as H.
  cbv zeta in H. fold start in H. rewrite H. simpl app.
  rewrite <- (map_id (f :: fs)) at 2. apply map_ext_in.
  intros g Hg. destruct (Hclean g Hg) as [He Ht].
  rewrite Forall_forall in Hq.
  rewrite (FieldFacts.cleanField_no_quote g (Hq g Hg)), Ht.
  apply (FieldFacts.filter_every _ _ _ He).
  intros c Hc. apply negb_true_iff, orb_false_elim in Hc.
  destruct Hc as [_ Hc]. now rewrite Hc.
Qed.

Lemma X10_quoted_round_trip_witness :
  parseCSVLine
    (concat "," (List.map quoted ["202309"; "Revenue, Net"; ""; "1,500"]))
  = ["202309"; "Revenue, Net"; ""; "1,500"].
Proof.
  apply X10_quoted_round_trip; [discriminate|].
  intros f Hf. simpl in Hf.
  destruct Hf as [<-|[<-|[<-|[<-|[]]]]]; split; reflexivity.
Defined.

(** ** The shape of a data set *)

Module ShapeFacts.

Lemma In_keys_accumulate o k a m :
  In m (Obj.keys (accumulate o k a)) <-> m = k \/ In m (Obj.keys o).
Proof.
  unfold accumulate. rewrite AggregationFacts.In_keys_set.
  destruct (Obj.get o k) as [v|]; [destruct (falsy v)|];
    rewrite ?AggregationFacts.In_keys_set; tauto.
Qed.

(** The keys of a record after the loop: its keys before, and the months
    of the rows. *)
Lemma In_keys_accumulateAll (rows : list Row) : forall o m,
  In m (Obj.keys (accumulateAll o rows))
  <-> In m (Obj.keys o) \/ exists r, In r rows /\ dateKey r = m.
Proof.
  induction rows as [|r rows IH]; intros o m.
  - simpl. split; [auto | intros [H|(r & [] & _)]; exact H].
  - change (accumulateAll o (r :: rows))
      with (accumulateAll (accumulate o (dateKey r) (rowAmount r)) rows).
    rewrite IH, In_keys_accumulate. split.
    + intros [[->|H]|(x & Hx & Hm)]; eauto.
      * right. exists r. split; [now left | reflexivity].
      * right. exists x. split; [now right | exact Hm].
    + intros [H|(x & [<-|Hx] & Hm)]; eauto.
Qed.

Lemma series_dates localeCompare (o : Obj.t number) :
  Permutation (List.map date (series localeCompare o)) (Obj.keys o).
Proof.
  unfold series. rewrite SortingFacts.sort_perm.
  unfold Obj.keys. rewrite map_map. reflexivity.
Qed.

Lemma get_map {V} (f : string -> V) (l : list string) c :
  In c l -> Obj.get (List.map (fun c => (c, f c)) l) c = Some (f c).
Proof.
  induction l as [|x l IH]; intros Hin; [contradiction|]. simpl.
  destruct (String.eqb_spec x c) as [->|Hne]; [reflexivity|].
  destruct Hin as [E|Hin]; [contradiction | auto].
Qed.

Section Resolved.

Variable newDate : string -> option (Z * Z).
Variable localeCompare : string -> string -> Z.

(** What a resolved data set is made of. *)
Lemma resolved_shape text ds :
  parseCSV newDate localeCompare text = Resolved ds ->
  exists classes,
    dataRows newDate text <> []
    /\ NoDup classes
    /\ (forall c, In c classes
                  <-> exists r, In r (dataRows newDate text)
                                /\ className r = c)
    /\ totalByDate ds
       = series localeCompare (accumulateAll [] (dataRows newDate text))
    /\ byClass ds
       = List.map
           (fun c => (c, series localeCompare
                           (accumulateAll []
                              (classRows c (dataRows newDate text)))))
           classes
    /\ availableClasses ds = Sorting.sort Sorting.codeUnitCompare classes.
Proof.
  intros Hds. rewrite parseCSV_cases in Hds.
  destruct (isEmpty _); [discriminate|].
  destruct (_ <? _)%nat; [discriminate|].
  destruct (_ || _); [discriminate|].
  set (rows := dataRows newDate text) in *.
  assert (Hres : rows <> []
                 /\ ds = assemble localeCompare
                           (fold_left aggregate rows emptyAcc))
    by (destruct rows; [discriminate | split; [discriminate
                                              | now injection Hds]]).
  clear Hds. destruct Hres as [Hne ->].
  set (acc := fold_left aggregate rows emptyAcc).
  destruct (SumFacts.foundClasses_fold rows emptyAcc) as [Hnd Hfound];
    [constructor|]. fold acc in Hnd, Hfound.
  exists (foundClasses acc). split; [exact Hne|]. split; [exact Hnd|].
  split; [|split; [|split]].
  - intros c. rewrite Hfound. simpl. rewrite in_map_iff.
    split; [intros [[]|(r & Hc & Hr)] | intros (r & Hr & Hc)]; eauto.
  - unfold assemble. simpl totalByDate. unfold acc.
    now rewrite SumFacts.totalMap_fold.
  - unfold assemble. simpl byClass.
    rewrite SumFacts.byClass_map; [| exact Hnd | intros c _ []].
    simpl app. apply map_ext. intros c. f_equal. f_equal.
    unfold acc. rewrite SumFacts.get_classMap_fold. simpl.
    destruct (classRows c rows); reflexivity.
  - reflexivity.
Qed.

End Resolved.




End ShapeFacts.

Section Shape.

Variable newDate : string -> option (Z * Z).
Variable localeCompare : string -> string -> Z.


(** X12. In a resolved data set the months of the total series are the
    months of the rows that survive, and the months of the series of a
    class are the months of the rows of that class; no series is empty.
    So every month of a class is a month of the total. *)
Theorem X12_months_of_the_series text ds :
  parseCSV newDate localeCompare text = Resolved ds ->
  totalByDate ds <> []
  /\ (forall m, In m (List.map date (totalByDate ds))
                <-> exists r, In r (dataRows newDate text) /\ dateKey r = m)
  /\ (forall c s,
        In (c, s) (byClass ds) ->
        s <> []
        /\ (forall m, In m (List.map date s)
                      <-> exists r, In r (dataRows newDate text)
                                    /\ className r = c /\ dateKey r = m)
        /\ (forall m, In m (List.map date s) ->
                      In m (List.map date (totalByDate ds)))).
Proof.
  intros Hds.
  destruct (ShapeFacts.resolved_shape _ _ _ _ Hds)
    as (classes & Hne & Hnd & Hin & Htot & Hby & _).
  assert (Hdates : forall rows m,
             In m (List.map date
                     (series localeCompare (accumulateAll [] rows)))
             <-> exists r, In r rows /\ dateKey r = m).
  { intros rows m. split.
    - intros H. eapply Permutation_in in H; [|apply ShapeFacts.series_dates].
      apply ShapeFacts.In_keys_accumulateAll in H.
      destruct H as [[]|H]. exact H.
    - intros H. eapply Permutation_in;
        [symmetry; apply ShapeFacts.series_dates|].
      apply ShapeFacts.In_keys_accumulateAll. now right. }
  assert (Hnonempty : forall rows,
             rows <> [] ->
             series localeCompare (accumulateAll [] rows) <> []).
  { intros [|r rows] Hr E; [now apply Hr|].
    assert (H : In (dateKey r)
                   (List.map date
                      (series localeCompare (accumulateAll [] (r :: rows)))))
      by (apply Hdates; exists r; split; [now left | reflexivity]).
    rewrite E in H. exact H. }
  rewrite Htot. split; [now apply Hnonempty|]. split; [apply Hdates|].
  intros c s Hcs. rewrite Hby in Hcs. apply in_map_iff in Hcs.
  destruct Hcs as (c' & [= -> <-] & Hc).
  assert (Hclass : forall m,
             In m (List.map date
                     (series localeCompare
                        (accumulateAll []
                           (classRows c (dataRows newDate text)))))
             <-> exists r, In r (dataRows newDate text)
                           /\ className r = c /\ dateKey r = m).
  { intros m. rewrite Hdates. unfold classRows. split.
    - intros (r & Hr & Hm). apply filter_In in Hr. destruct Hr as [Hr Hcl].
      apply String.eqb_eq in Hcl. eauto.
    - intros (r & Hr & Hcl & Hm). exists r. split; [|exact Hm].
      apply filter_In. split; [exact Hr | now apply String.eqb_eq]. }
  split; [|split; [exact Hclass|]].
  - apply Hnonempty. apply Hin in Hc. destruct Hc as (r & Hr & Hcl).
    intros E. assert (H : In r (classRows c (dataRows newDate text)))
      by (apply filter_In; split; [exact Hr | now apply String.eqb_eq]).
    rewrite E in H. exact H.
  - intros m Hm. apply Hdates. apply Hclass in Hm.
    destruct Hm as (r & Hr & _ & Hm). eauto.
Qed.

(** X13. After a file has been parsed, every value the select box offers
    can be analysed: the handler of the selection never reports a class
    without data.  "ALL" gives the total series; a class gives its series
    under the label of the class. *)
Theorem X13_selection_has_data text ds cls :
  parseCSV newDate localeCompare text = Resolved ds ->
  In cls (App.options ds) ->
  exists data segmentName,
    App.handleClassChange (Some ds) cls = App.Analyze data segmentName
    /\ data <> []
    /\ (cls = "ALL" ->
        data = totalByDate ds /\ segmentName = "Total Portfolio")
    /\ (cls <> "ALL" ->
        Obj.get (byClass ds) cls = Some data
        /\ segmentName = "Account Class: " ++ cls).
Proof.
  intros Hds Hopt.
  destruct (ShapeFacts.resolved_shape _ _ _ _ Hds)
    as (classes & Hne & Hnd & Hin & Htot & Hby & Hav).
  assert (Hlen : forall (l : list MonthlyData),
             l <> [] -> (0 <? List.length l)%nat = true)
    by (intros [|x l] H; [contradiction | reflexivity]).
  unfold App.handleClassChange.
  destruct (String.eqb_spec cls "ALL") as [->|Hcls].
  - assert (Ht : totalByDate ds <> []).
    { rewrite Htot. intros E.
      destruct (dataRows newDate text) as [|r rows]; [now apply Hne|].
      assert (H : In (dateKey r)
                     (List.map date
                        (series localeCompare
                           (accumulateAll [] (r :: rows))))).
      { eapply Permutation_in; [symmetry; apply ShapeFacts.series_dates|].
        apply ShapeFacts.In_keys_accumulateAll. right. exists r.
        split; [now left | reflexivity]. }
      rewrite E in H. exact H. }
    rewrite (Hlen _ Ht). eexists. eexists. split; [reflexivity|].
    split; [exact Ht|]. split; [auto | intros H; now contradiction H].
  - destruct Hopt as [E|Hopt]; [congruence|].
    assert (Hc : In cls classes).
    { rewrite Hav in Hopt. eapply Permutation_in; [|exact Hopt].
      apply SortingFacts.sort_perm. }
    rewrite Hby, (ShapeFacts.get_map _ classes cls Hc).
    set (s := series localeCompare
                (accumulateAll [] (classRows cls (dataRows newDate text)))).
    assert (Hs : s <> []).
    { apply Hin in Hc. destruct Hc as (r & Hr & Hcl). intros E.
      assert (H : In (dateKey r) (List.map date s)).
      { eapply Permutation_in; [symmetry; apply ShapeFacts.series_dates|].
        apply ShapeFacts.In_keys_accumulateAll. right. exists r.
        split; [|reflexivity].
        apply filter_In. split; [exact Hr | now apply String.eqb_eq]. }
      rewrite E in H. exact H. }
    rewrite (Hlen _ Hs). eexists. eexists. split; [reflexivity|].
    split; [exact Hs|]. split; [intros E; contradiction | auto].
Qed.

End Shape.


Lemma X12_months_of_the_series_witness :
  exists ds,
    parseCSV (fun _ => None) Sorting.codeUnitCompare
      (fileOf ["billPeriod,amount,accountClass"; "202309,5,b";
               "202308,7,A"; "202309,1,A"]) = Resolved ds
    /\ List.map date (totalByDate ds) = ["2023-08"; "2023-09"]
    /\ totalByDate ds <> [].
Proof.
  eexists. split; [vm_compute; reflexivity|]. split; [reflexivity|].
  apply (X12_months_of_the_series (fun _ => None) Sorting.codeUnitCompare
           (fileOf ["billPeriod,amount,accountClass"; "202309,5,b";
                    "202308,7,A"; "202309,1,A"])).
  vm_compute. reflexivity.
Defined.

Lemma X13_selection_has_data_witness :
  exists ds data segmentName,
    parseCSV (fun _ => None) Sorting.codeUnitCompare
      (fileOf ["billPeriod,amount,accountClass"; "202309,5,b";
               "202308,7,A"; "202309,1,A"]) = Resolved ds
    /\ App.handleClassChange (Some ds) "A" = App.Analyze data segmentName
    /\ data <> [].
Proof.
  eexists.
  destruct (X13_selection_has_data (fun _ => None) Sorting.codeUnitCompare
              (fileOf ["billPeriod,amount,accountClass"; "202309,5,b";
                       "202308,7,A"; "202309,1,A"]) _ "A"
              ltac:(vm_compute; reflexivity) ltac:(simpl; auto))
    as (data & name & Hh & Hd & _).
  exists data, name. split; [vm_compute; reflexivity|].
  split; [exact Hh | exact Hd].
Defined.

(** ** Reading amounts *)

Module AmountFacts.
Import NumberFacts.

Lemma digit_code c : isDigit c = true -> 0 <= Z.of_N (code c) - 48 <= 9.
Proof.
  unfold isDigit. intros H. apply andb_prop in H. destruct H as [H1 H2].
  apply N.leb_le in H1, H2. lia.
Qed.

Lemma digitsValue_nonneg (ds : string) : forall acc,
  0 <= acc -> every isDigit ds = true -> 0 <= digitsValue acc ds.
Proof.
  induction ds as [|c ds IH]; intros acc Hacc Hds; [exact Hacc|].
  change (every isDigit (String c ds))
    with (isDigit c && every isDigit ds) in Hds.
  apply andb_prop in Hds. destruct Hds as [Hc Hds].
  change (digitsValue acc (String c ds))
    with (digitsValue (10 * acc + (Z.of_N (code c) - 48)) ds).
  apply IH; [|exact Hds]. pose proof (digit_code c Hc). lia.
Qed.

Lemma spanDigits_all (ds : string) :
  every isDigit ds = true -> spanDigits ds = (ds, EmptyString).
Proof.
  induction ds as [|c ds IH]; simpl; [reflexivity|].
  intros H. apply andb_prop in H. destruct H as [Hc Hds].
  now rewrite Hc, IH.
Qed.

Lemma parseFloat_digit c r :
  isDigit c = true ->
  parseFloat (String c r) = unsignedLiteral false (String c r)
  /\ prefix "Infinity" (String c r) = false.
Proof.
  destruct c as [[] [] [] [] [] [] [] []]; intros H;
    try discriminate H; split; reflexivity.
Qed.

Lemma parseFloat_digits (ds : string) :
  ds <> EmptyString -> every isDigit ds = true ->
  parseFloat ds = ofDecimal false (digitsValue 0 ds) 0.
Proof.
  intros Hne Hds. destruct ds as [|c r]; [contradiction|].
  assert (Hc : isDigit c = true)
    by (simpl in Hds; now apply andb_prop in Hds).
  destruct (parseFloat_digit c r Hc) as [-> Hp].
  unfold unsignedLiteral.
  rewrite Hp, (spanDigits_all _ Hds). cbv iota beta zeta.
  change (isEmpty (String c r)) with false. cbn [andb].
  rewrite StringFacts.append_empty_r.
  change (exponentPart EmptyString) with 0.
  change (Z.of_nat (String.length EmptyString)) with 0.
  reflexivity.
Qed.

(** A decimal literal without fraction and exponent is read exactly when
    it is below [2^53]. *)
Lemma ofDecimal_integer v :
  0 <= v < 2 ^ prec -> ofDecimal false v 0 = ofZ v.
Proof.
  intros Hv. unfold ofDecimal.
  destruct (Z.eqb_spec v 0) as [->|Hne]; [reflexivity|].
  change (Z.max 0 0) with 0. change (Z.max (- 0) 0) with 0.
  change (10 ^ 0) with 1. rewrite Z.mul_1_r, Z.div_1_r, Z.mod_1_r.
  change (0 =? 0) with true. cbv iota. unfold cond_Zopp.
  replace (2 * (v * 2 ^ 1075) + 0) with (v * 2 ^ 1076).
  - apply (normalize_exact v 1076); lia.
  - change 1076 with (Z.succ 1075). rewrite Z.pow_succ_r by lia. ring.
Qed.

(** The integer of the number that stands for an integer below [2^53]. *)
Lemma toZ_ofZ z : Z.abs z < 2 ^ prec -> toZ (ofZ z) = z.
Proof.
  intros Hz.
  assert (Hpos : forall s c, Zpos c < 2 ^ prec ->
                   toZ (normal s c) = cond_Zopp s (Zpos c)).
  { intros s c Hc. unfold normal, toZ. f_equal.
    pose proof (digits_le c Hc) as Hd.
    set (d := Zpos (digits2_pos c)) in *.
    destruct (Z.leb_spec 0 (d - prec)).
    - replace (prec - d) with 0 by lia. replace (d - prec) with 0 by lia.
      rewrite shl_0. lia.
    - rewrite Zpos_shl by lia.
      replace (- (d - prec)) with (prec - d) by lia.
      apply Z.div_mul. apply Z.pow_nonzero; lia. }
  destruct z as [|c|c]; [reflexivity | |].
  - rewrite ofZ_pos by exact Hz. now apply (Hpos false).
  - rewrite ofZ_neg by exact Hz. now apply (Hpos true).
Qed.

End AmountFacts.

Section Amounts.

Variable newDate : string -> option (Z * Z).

(** X14. An amount field made of decimal digits, with or without commas
    between them, is read as the integer the digits write, exactly, as long
    as the integer is below [2^53]: such an amount is an integer amount. *)
Theorem X14_integer_amounts rawAmount :
  let digits := filter (fun ch => negb (Ascii.eqb ch comma)) rawAmount in
  digits <> EmptyString ->
  every isDigit digits = true ->
  digitsValue 0 digits < 2 ^ prec ->
  amountOf rawAmount = ofZ (digitsValue 0 digits)
  /\ toZ (amountOf rawAmount) = digitsValue 0 digits
  /\ isInteger (amountOf rawAmount).
Proof.
  intros digits Hne Hds Hv. unfold amountOf. fold digits.
  pose proof (AmountFacts.digitsValue_nonneg digits 0 (Z.le_refl 0) Hds)
    as Hpos.
  assert (Hread : parseFloat digits = ofZ (digitsValue 0 digits)).
  { rewrite (AmountFacts.parseFloat_digits digits Hne Hds).
    apply AmountFacts.ofDecimal_integer. lia. }
  rewrite Hread.
  assert (Ht : toZ (ofZ (digitsValue 0 digits)) = digitsValue 0 digits)
    by (apply AmountFacts.toZ_ofZ; lia).
  split; [reflexivity|]. split; [exact Ht|].
  unfold isInteger. now rewrite Ht.
Qed.

(** X15. An amount field that, its commas removed, starts with a character
    that is no white space, digit, sign, dot or capital I is read as NaN,
    and its row is dropped: so for a currency sign before the number or a
    negative amount between parentheses. *)
Theorem X15_unreadable_amounts c line rawAmount first rest :
  at_ (parseCSVLine (trim line)) (amountIndex c) = Some rawAmount ->
  filter (fun ch => negb (Ascii.eqb ch comma)) rawAmount = String first rest ->
  isWhiteSpace first || isDigit first || Ascii.eqb first "+"
  || Ascii.eqb first "-" || Ascii.eqb first "." || Ascii.eqb first "I"
  = false ->
  amountOf rawAmount = NaN /\ readRow newDate c line = None.
Proof.
  intros Hat Hfirst Hc.
  assert (Hnan : amountOf rawAmount = NaN).
  { unfold amountOf. rewrite Hfirst. clear - Hc.
    destruct first as [[] [] [] [] [] [] [] []];
      try discriminate Hc; reflexivity. }
  split; [exact Hnan|]. unfold readRow.
  destruct (isEmpty (trim line)); [reflexivity|].
  destruct (_ <=? _); [reflexivity|].
  destruct (at_ _ (dateIndex c)) as [rawDate|]; [|reflexivity].
  rewrite Hat.
  destruct (isEmpty rawDate || isEmpty rawAmount); [reflexivity|].
  destruct (isEmpty (dateKeyOf newDate rawDate)); [reflexivity|].
  rewrite Hnan. reflexivity.
Qed.

End Amounts.

Lemma X14_integer_amounts_witness :
  amountOf "1,234,567" = ofZ 1234567 /\ isInteger (amountOf "1,234,567").
Proof.
  destruct (X14_integer_amounts "1,234,567") as (H1 & _ & H3).
  - discriminate.
  - reflexivity.
  - vm_compute. reflexivity.
  - split; [exact H1 | exact H3].
Defined.

Lemma X15_unreadable_amounts_witness :
  readRow (fun _ => None) (mkColumns 0 1 (-1)) "202309,(1,500)" = None.
Proof.
  apply (X15_unreadable_amounts (fun _ => None) (mkColumns 0 1 (-1))
           "202309,(1,500)" "(1" "("%char "1").
  - vm_compute. reflexivity.
  - reflexivity.
  - reflexivity.
Defined.

(** ** The sum of a history *)

Module HistoryFacts.
Import NumberFacts.





End HistoryFacts.

Section HistorySum.

Variable newDate : string -> option (Z * Z).
Variable localeCompare : string -> string -> Z.


End HistorySum.


(** ** Lines joined and split *)

Module JoinFacts.

Lemma splitLinesFrom_cons cur c r :
  splitLinesFrom cur (String c r)
  = if Ascii.eqb c LF then cur :: splitLinesFrom EmptyString r
    else match r with
         | String d r' =>
             if Ascii.eqb c CR && Ascii.eqb d LF
             then cur :: splitLinesFrom EmptyString r'
             else splitLinesFrom (cur ++ String c EmptyString) r
         | EmptyString => [cur ++ String c EmptyString]
         end.
Proof. reflexivity. Qed.

Lemma snoc_append (cur : string) c (l : string) :
  (cur ++ String c EmptyString) ++ l = cur ++ String c l.
Proof. now rewrite <- StringFacts.append_assoc. Qed.

Lemma noLF_cons c (l : string) :
  every (fun c => negb (Ascii.eqb c LF)) (String c l) = true ->
  Ascii.eqb c LF = false
  /\ every (fun c => negb (Ascii.eqb c LF)) l = true.
Proof.
  simpl. intros H. apply andb_prop in H. destruct H as [Hc Hl].
  split; [now apply negb_true_iff | exact Hl].
Qed.

(** A line that holds no line feed and does not end in CR, followed by a
    line feed, is split off as it is. *)
Lemma split_line_LF (l : string) : forall cur rest,
  every (fun c => negb (Ascii.eqb c LF)) l = true ->
  endsWithChar CR l = false ->
  splitLinesFrom cur (l ++ String LF rest)
  = (cur ++ l) :: splitLinesFrom EmptyString rest.
Proof.
  induction l as [|c l IH]; intros cur rest Hl Hcr.
  - change (EmptyString ++ String LF rest) with (String LF rest).
    rewrite splitLinesFrom_cons, Ascii.eqb_refl.
    now rewrite StringFacts.append_empty_r.
  - apply noLF_cons in Hl. destruct Hl as [Hc Hl].
    change (String c l ++ String LF rest)
      with (String c (l ++ String LF rest)).
    rewrite splitLinesFrom_cons, Hc.
    destruct l as [|d l'].
    + change (EmptyString ++ String LF rest) with (String LF rest).
      change (endsWithChar CR (String c EmptyString))
        with (Ascii.eqb c CR) in Hcr.
      rewrite Hcr. cbn [andb].
      rewrite splitLinesFrom_cons, Ascii.eqb_refl. reflexivity.
    + change (String d l' ++ String LF rest)
        with (String d (l' ++ String LF rest)).
      destruct (noLF_cons _ _ Hl) as [Hd _].
      rewrite Hd, andb_false_r.
      change (String d (l' ++ String LF rest))
        with (String d l' ++ String LF rest).
      rewrite IH by assumption. now rewrite snoc_append.
Qed.

(** A line that holds no line feed, followed by CR and a line feed, is
    split off as it is. *)
Lemma split_line_CRLF (l : string) : forall cur rest,
  every (fun c => negb (Ascii.eqb c LF)) l = true ->
  splitLinesFrom cur (l ++ String CR (String LF rest))
  = (cur ++ l) :: splitLinesFrom EmptyString rest.
Proof.
  induction l as [|c l IH]; intros cur rest Hl.
  - change (EmptyString ++ String CR (String LF rest))
      with (String CR (String LF rest)).
    rewrite splitLinesFrom_cons.
    change (Ascii.eqb CR LF) with false. cbv iota.
    rewrite !Ascii.eqb_refl. cbn [andb].
    now rewrite StringFacts.append_empty_r.
  - apply noLF_cons in Hl. destruct Hl as [Hc Hl].
    change (String c l ++ String CR (String LF rest))
      with (String c (l ++ String CR (String LF rest))).
    rewrite splitLinesFrom_cons, Hc.
    assert (Hnext : exists d r', l ++ String CR (String LF rest) = String d r'
                                 /\ Ascii.eqb d LF = false).
    { destruct l as [|d l'].
      - exists CR, (String LF rest). split; reflexivity.
      - exists d, (l' ++ String CR (String LF rest)).
        split; [reflexivity | now apply noLF_cons in Hl]. }
    destruct Hnext as (d & r' & E & Hd).
    rewrite E at 1. rewrite Hd, andb_false_r.
    rewrite IH by assumption. now rewrite snoc_append.
Qed.

(** A last line that holds no line feed stays whole. *)
Lemma split_last (l : string) : forall cur,
  every (fun c => negb (Ascii.eqb c LF)) l = true ->
  splitLinesFrom cur l = [cur ++ l].
Proof.
  induction l as [|c l IH]; intros cur Hl.
  - now rewrite StringFacts.append_empty_r.
  - apply noLF_cons in Hl. destruct Hl as [Hc Hl].
    rewrite splitLinesFrom_cons, Hc.
    destruct l as [|d l']; [reflexivity|].
    destruct (noLF_cons _ _ Hl) as [Hd _].
    rewrite Hd, andb_false_r.
    rewrite IH by assumption. now rewrite snoc_append.
Qed.

Section Joined.

Variable sep : string.
Variable P : string -> Prop.

Hypothesis P_noLF : forall l,
  P l -> every (fun c => negb (Ascii.eqb c LF)) l = true.
Hypothesis split_sep : forall l cur rest,
  P l ->
  splitLinesFrom cur (l ++ sep ++ rest)
  = (cur ++ l) :: splitLinesFrom EmptyString rest.

Lemma splitLinesFrom_concat (rest : list string) : forall l cur,
  Forall P (l :: rest) ->
  splitLinesFrom cur (concat sep (l :: rest)) = (cur ++ l) :: rest.
Proof.
  induction rest as [|x rest IH]; intros l cur Hall;
    inversion Hall as [|? ? Hl Hrest]; subst.
  - simpl concat. now apply split_last, P_noLF.
  - change (concat sep (l :: x :: rest))
      with (l ++ sep ++ concat sep (x :: rest)).
    rewrite split_sep by exact Hl. f_equal.
    now rewrite IH by exact Hrest.
Qed.

End Joined.

Lemma every_concat p (sep : string) (ls : list string) :
  every p sep = true ->
  every p (concat sep ls) = forallb (every p) ls.
Proof.
  intros Hsep. induction ls as [|x [|y l] IH]; [reflexivity | |].
  - simpl. now rewrite andb_true_r.
  - change (concat sep (x :: y :: l)) with (x ++ sep ++ concat sep (y :: l)).
    rewrite !KeyFacts.every_append, Hsep, IH. reflexivity.
Qed.

Lemma isEmpty_trimEnd (s : string) :
  isEmpty (trimEnd s) = every isWhiteSpace s.
Proof.
  induction s as [|c s IH]; [reflexivity|]. simpl. rewrite <- IH.
  destruct (isWhiteSpace c), (isEmpty (trimEnd s)); reflexivity.
Qed.

Lemma every_isWhiteSpace_trimStart (s : string) :
  every isWhiteSpace (trimStart s) = every isWhiteSpace s.
Proof.
  induction s as [|c s IH]; [reflexivity|]. simpl.
  destruct (isWhiteSpace c) eqn:E; [exact IH|]. simpl. now rewrite E.
Qed.

(** A text trims to nothing exactly when it is made of white space. *)
Lemma isEmpty_trim (s : string) : isEmpty (trim s) = every isWhiteSpace s.
Proof.
  unfold trim. now rewrite isEmpty_trimEnd, every_isWhiteSpace_trimStart.
Qed.

End JoinFacts.

Section JoinedLines.

Variable newDate : string -> option (Z * Z).
Variable localeCompare : string -> string -> Z.

(** The parse sees of a text only its lines and whether it is blank. *)
Lemma parseCSV_lines text text' :
  every isWhiteSpace text = every isWhiteSpace text' ->
  splitLines text = splitLines text' ->
  parseCSV newDate localeCompare text = parseCSV newDate localeCompare text'.
Proof.
  intros Hws Hlines. rewrite !parseCSV_cases.
  unfold dataRows, columnsOf, headerLineOf.
  now rewrite !JoinFacts.isEmpty_trim, Hws, Hlines.
Qed.

(** X17. Lines that hold no line feed and do not end in CR, joined by line
    feeds, split into the same lines again; joined by CR and line feed
    they split into the same lines too, and the parse of the one text is
    the parse of the other. *)
Theorem X17_lines_round_trip (lines : list string) :
  lines <> [] ->
  Forall (fun l => every (fun c => negb (Ascii.eqb c LF)) l = true
                   /\ endsWithChar CR l = false) lines ->
  splitLines (fileOf lines) = lines
  /\ splitLines (concat (String CR newline) lines) = lines
  /\ parseCSV newDate localeCompare (concat (String CR newline) lines)
     = parseCSV newDate localeCompare (fileOf lines).
Proof.
  intros Hne Hall. destruct lines as [|l rest]; [contradiction|].
  assert (HLF : splitLines (fileOf (l :: rest)) = l :: rest).
  { unfold splitLines, fileOf.
    rewrite (JoinFacts.splitLinesFrom_concat newline _ (fun x H => proj1 H))
      with (2 := Hall); [reflexivity|].
    intros x cur r [Hx Hcr]. now apply JoinFacts.split_line_LF. }
  assert (HCRLF : splitLines (concat (String CR newline) (l :: rest))
                  = l :: rest).
  { unfold splitLines.
    rewrite (JoinFacts.splitLinesFrom_concat (String CR newline) _
               (fun x H => proj1 H))
      with (2 := Hall); [reflexivity|].
    intros x cur r [Hx _]. now apply JoinFacts.split_line_CRLF. }
  split; [exact HLF|]. split; [exact HCRLF|].
  apply parseCSV_lines; [|now rewrite HLF, HCRLF].
  unfold fileOf. now rewrite !JoinFacts.every_concat.
Qed.

(** X18. A line of white space among the data lines of a file does not
    change the parse, as long as another data line is left. *)
Theorem X18_blank_lines_are_skipped header before blank after :
  Forall (fun l => every (fun c => negb (Ascii.eqb c LF)) l = true
                   /\ endsWithChar CR l = false)
         (header :: (before ++ blank :: after)%list) ->
  every isWhiteSpace blank = true ->
  (before ++ after)%list <> [] ->
  parseCSV newDate localeCompare
    (fileOf (header :: (before ++ blank :: after)%list))
  = parseCSV newDate localeCompare
      (fileOf (header :: (before ++ after)%list)).
Proof.
  intros Hall Hblank Hne.
  assert (Hall' : Forall (fun l => every (fun c => negb (Ascii.eqb c LF)) l
                                   = true
                                   /\ endsWithChar CR l = false)
                         (header :: (before ++ after)%list)).
  { inversion Hall as [|? ? Hh Hrest]; subst. constructor; [exact Hh|].
    apply Forall_app in Hrest. destruct Hrest as [Hb Ha].
    inversion Ha; subst. apply Forall_app. now split. }
  assert (Hsplit : forall ls,
             Forall (fun l => every (fun c => negb (Ascii.eqb c LF)) l = true
                              /\ endsWithChar CR l = false) (header :: ls) ->
             splitLines (fileOf (header :: ls)) = header :: ls).
  { intros ls H. unfold splitLines, fileOf.
    rewrite (JoinFacts.splitLinesFrom_concat newline _ (fun x H => proj1 H))
      with (2 := H); [reflexivity|].
    intros x cur r [Hx Hcr]. now apply JoinFacts.split_line_LF. }
  rewrite !parseCSV_cases, !JoinFacts.isEmpty_trim.
  unfold dataRows, columnsOf, headerLineOf.
  rewrite (Hsplit _ Hall), (Hsplit _ Hall').
  unfold fileOf. rewrite !JoinFacts.every_concat by reflexivity.
  assert (Hws : forallb (every isWhiteSpace)
                   (header :: (before ++ blank :: after)%list)
                = forallb (every isWhiteSpace)
                    (header :: (before ++ after)%list)).
  { simpl. rewrite !forallb_app. simpl. now rewrite Hblank. }
  rewrite Hws.
  assert (Hlen : forall ls : list string,
             ls <> [] -> (List.length (header :: ls) <? 2)%nat = false).
  { intros [|x ls] H; [contradiction | reflexivity]. }
  rewrite !Hlen by (try exact Hne; destruct before; discriminate).
  cbn [hd tl].
  assert (Hrows : forall c,
             validRows newDate c (before ++ blank :: after)%list
             = validRows newDate c (before ++ after)%list).
  { intros c. unfold validRows. rewrite !flat_map_app. f_equal.
    simpl. unfold readRow at 1.
    now rewrite JoinFacts.isEmpty_trim, Hblank. }
  rewrite Hrows. reflexivity.
Qed.

End JoinedLines.

Lemma X17_lines_round_trip_witness :
  splitLines (fileOf ["billPeriod,amount"; "202309,5"; ""])
  = ["billPeriod,amount"; "202309,5"; ""].
Proof.
  refine (proj1 (X17_lines_round_trip (fun _ => None) Sorting.codeUnitCompare
                   ["billPeriod,amount"; "202309,5"; ""] _ _)).
  - discriminate.
  - repeat constructor.
Defined.

Lemma X18_blank_lines_are_skipped_witness :
  parseCSV (fun _ => None) Sorting.codeUnitCompare
    (fileOf ["billPeriod,amount"; "202309,5"; "  "; "202310,7"])
  = parseCSV (fun _ => None) Sorting.codeUnitCompare
      (fileOf ["billPeriod,amount"; "202309,5"; "202310,7"]).
Proof.
  apply (X18_blank_lines_are_skipped (fun _ => None) Sorting.codeUnitCompare
           "billPeriod,amount" ["202309,5"] "  " ["202310,7"]).
  - repeat constructor.
  - reflexivity.
  - discriminate.
Defined.

(** ** Month keys and the calendar *)

Module DateFacts.

Lemma digitsValue_split (s : string) : forall acc,
  digitsValue acc s
  = acc * 10 ^ Z.of_nat (String.length s) + digitsValue 0 s.
Proof.
  induction s as [|c s IH]; intros acc.
  - simpl. lia.
  - change (digitsValue acc (String c s))
      with (digitsValue (10 * acc + (Z.of_N (code c) - 48)) s).
    change (digitsValue 0 (String c s))
      with (digitsValue (10 * 0 + (Z.of_N (code c) - 48)) s).
    rewrite (IH (10 * acc + _)), (IH (10 * 0 + _)).
    change (String.length (String c s)) with (S (String.length s)).
    rewrite Nat2Z.inj_succ, Z.pow_succ_r by lia. ring.
Qed.

Lemma digitsValue_bound (s : string) :
  every isDigit s = true ->
  0 <= digitsValue 0 s < 10 ^ Z.of_nat (String.length s).
Proof.
  induction s as [|c s IH]; intros Hs.
  - simpl. lia.
  - change (every isDigit (String c s))
      with (isDigit c && every isDigit s) in Hs.
    apply andb_prop in Hs. destruct Hs as [Hc Hs].
    specialize (IH Hs). pose proof (AmountFacts.digit_code c Hc) as Hv.
    change (digitsValue 0 (String c s))
      with (digitsValue (10 * 0 + (Z.of_N (code c) - 48)) s).
    rewrite digitsValue_split.
    change (String.length (String c s)) with (S (String.length s)).
    rewrite Nat2Z.inj_succ, Z.pow_succ_r by lia. nia.
Qed.

(** Runs of digits of one length compare by code units as the numbers
    they write compare. *)
Lemma compare_digits (a : string) : forall b,
  String.length a = String.length b ->
  every isDigit a = true -> every isDigit b = true ->
  String.compare a b = Z.compare (digitsValue 0 a) (digitsValue 0 b).
Proof.
  induction a as [|c a IH]; intros [|d b] Hlen Ha Hb;
    try discriminate Hlen; [reflexivity|].
  change (every isDigit (String c a))
    with (isDigit c && every isDigit a) in Ha.
  change (every isDigit (String d b))
    with (isDigit d && every isDigit b) in Hb.
  apply andb_prop in Ha, Hb. destruct Ha as [Hc Ha], Hb as [Hd Hb].
  injection Hlen as Hlen.
  pose proof (digitsValue_bound a Ha) as Hba.
  pose proof (digitsValue_bound b Hb) as Hbb.
  pose proof (AmountFacts.digit_code c Hc) as Hvc.
  pose proof (AmountFacts.digit_code d Hd) as Hvd.
  change (digitsValue 0 (String c a))
    with (digitsValue (10 * 0 + (Z.of_N (code c) - 48)) a).
  change (digitsValue 0 (String d b))
    with (digitsValue (10 * 0 + (Z.of_N (code d) - 48)) b).
  rewrite (digitsValue_split a), (digitsValue_split b), <- Hlen.
  rewrite <- Hlen in Hbb.
  set (P := 10 ^ Z.of_nat (String.length a)) in *.
  change (String.compare (String c a) (String d b))
    with (match Ascii.compare c d with
          | Eq => String.compare a b
          | Lt => Lt
          | Gt => Gt
          end).
  unfold Ascii.compare. fold (code c). fold (code d).
  destruct (N.compare_spec (code c) (code d)) as [E|Hlt|Hgt].
  - rewrite E, (IH b Hlen Ha Hb).
    destruct (Z.compare_spec (digitsValue 0 a) (digitsValue 0 b));
      symmetry; [apply Z.compare_eq_iff | apply Z.compare_lt_iff
                 | apply Z.compare_gt_iff]; lia.
  - symmetry. apply Z.compare_lt_iff. nia.
  - symmetry. apply Z.compare_gt_iff. nia.
Qed.

(** What the digit rules make of a raw date. *)
Lemma digit_key newDate rawDate :
  dateRule rawDate = SixDigits \/ dateRule rawDate = EightDigits ->
  exists y1 y2 y3 y4 m1 m2,
    substring 0 6 (cleanDateOf rawDate)
    = String y1 (String y2 (String y3 (String y4 (String m1 (String m2
        EmptyString)))))
    /\ dateKeyOf newDate rawDate
       = String y1 (String y2 (String y3 (String y4 (String "-"
           (String m1 (String m2 EmptyString))))))
    /\ every isDigit
         (String y1 (String y2 (String y3 (String y4 (String m1 (String m2
            EmptyString)))))) = true.
Proof.
  intros Hrule.
  pose proof (KeyFacts.every_filter isDigit rawDate) as Hds.
  fold (cleanDateOf rawDate) in Hds.
  assert (Hlen : (6 <= String.length (cleanDateOf rawDate))%nat).
  { unfold dateRule in Hrule.
    destruct (Nat.eqb_spec (String.length (cleanDateOf rawDate)) 6);
      [lia|].
    destruct (Nat.eqb_spec (String.length (cleanDateOf rawDate)) 8);
      [lia|].
    destruct (_ || _); destruct Hrule; discriminate. }
  unfold dateKeyOf.
  destruct (cleanDateOf rawDate)
    as [|y1 [|y2 [|y3 [|y4 [|m1 [|m2 r]]]]]]; simpl in Hlen; try lia.
  exists y1, y2, y3, y4, m1, m2.
  split; [destruct r; reflexivity|]. split.
  - destruct Hrule as [-> | ->]; destruct r; reflexivity.
  - simpl in Hds. simpl.
    repeat (apply andb_prop in Hds; destruct Hds as [-> Hds]).
    reflexivity.
Qed.

End DateFacts.

Section Chronology.

Variable newDate : string -> option (Z * Z).

(** X19. For dates the digit rules read, the order of the month keys by
    code units is the order of the calendar: two keys compare as the
    numbers compare that the first six digits of the raw dates write, year
    before month. *)
Theorem X19_digit_keys_are_chronological a b :
  dateRule a = SixDigits \/ dateRule a = EightDigits ->
  dateRule b = SixDigits \/ dateRule b = EightDigits ->
  String.compare (dateKeyOf newDate a) (dateKeyOf newDate b)
  = Z.compare (digitsValue 0 (substring 0 6 (cleanDateOf a)))
              (digitsValue 0 (substring 0 6 (cleanDateOf b))).
Proof.
  intros Ha Hb.
  destruct (DateFacts.digit_key newDate a Ha)
    as (y1 & y2 & y3 & y4 & m1 & m2 & -> & -> & Hda).
  destruct (DateFacts.digit_key newDate b Hb)
    as (z1 & z2 & z3 & z4 & n1 & n2 & -> & -> & Hdb).
  match type of Hda with
  | every _ ?x = _ =>
      match type of Hdb with
      | every _ ?y = _ =>
          rewrite <- (DateFacts.compare_digits x y eq_refl Hda Hdb)
      end
  end.
  reflexivity.
Qed.

End Chronology.

Lemma X19_digit_keys_are_chronological_witness :
  String.compare (dateKeyOf (fun _ => None) "2023-12-31")
                 (dateKeyOf (fun _ => None) "202401") = Lt.
Proof.
  rewrite (X19_digit_keys_are_chronological (fun _ => None)
             "2023-12-31" "202401").
  - reflexivity.
  - right. reflexivity.
  - left. reflexivity.
Defined.

(** ** The order of the rows *)

Module OrderFacts.
Import NumberFacts.









Section Series.

Variable localeCompare : string -> string -> Z.

Hypothesis localeCompare_keys : forall a b,
  keyText a = true -> keyText b = true ->
  Z.compare (localeCompare a b) 0 = String.compare a b.


End Series.

End OrderFacts.

Section RowOrder.

Variable newDate : string -> option (Z * Z).
Variable localeCompare : string -> string -> Z.

(** The host orders month keys as their code units do. *)
Hypothesis localeCompare_keys : forall a b,
  keyText a = true -> keyText b = true ->
  Z.compare (localeCompare a b) 0 = String.compare a b.


End RowOrder.

